(** * attrstance: type-whitelist validators for attrs classes

    A shallow embedding of [attrstance/validators.py] and of the part of the
    Python runtime the module relies on ([isinstance], [issubclass], [iter],
    [frozenset], [str.format], attribute lookup, exceptions and their
    [__context__]).

    The runtime is the one the package declares (CPython 3.6/3.7, attrs >= 18.2).
    Values are a closed universe of Python objects, large enough for every call
    the module makes; iterators are the only objects of the universe with
    mutable state and live in a store. *)

From Stdlib Require Import Ascii String.
From stdpp Require Import base gmap strings list.

Local Open Scope string_scope.

#[local] Set Warnings "-register-all,-clear-no-such-hyp".

(** ** Classes *)

(** User-defined classes, single inheritance: [UBase n] is [class n: ...],
    [USub n b] is [class n(b): ...]. *)
Inductive uclass :=
| UBase (name : string)
| USub (name : string) (base : uclass).

Inductive pyclass :=
| Cobject
| Ctype
| CNoneType
| Cint
| Cbool
| Cstr
| Clist
| Ctuple
| Cset
| Cfrozenset
| Clist_iterator
| Cgenerator
| CAttribute
| CGenericAlias
| CUser (u : uclass).

#[global] Instance uclass_eq_dec : EqDecision uclass.
Proof. solve_decision. Defined.

#[global] Instance pyclass_eq_dec : EqDecision pyclass.
Proof. solve_decision. Defined.

Fixpoint umro (u : uclass) : list pyclass :=
  match u with
  | UBase _ => [CUser u; Cobject]
  | USub _ b => CUser u :: umro b
  end.

(** [c.__mro__] *)
Definition mro (c : pyclass) : list pyclass :=
  match c with
  | Cobject => [Cobject]
  | Cbool => [Cbool; Cint; Cobject]
  | CUser u => umro u
  | _ => [c; Cobject]
  end.

(** [issubclass(c, d)] for two classes: [d] occurs in the MRO of [c]. *)
Definition subclass_of_class (c d : pyclass) : bool := bool_decide (d ∈ mro c).

Definition uclass_name (u : uclass) : string :=
  match u with UBase n => n | USub n _ => n end.

(** [c.__name__] *)
Definition class_name (c : pyclass) : string :=
  match c with
  | Cobject => "object"
  | Ctype => "type"
  | CNoneType => "NoneType"
  | Cint => "int"
  | Cbool => "bool"
  | Cstr => "str"
  | Clist => "list"
  | Ctuple => "tuple"
  | Cset => "set"
  | Cfrozenset => "frozenset"
  | Clist_iterator => "list_iterator"
  | Cgenerator => "generator"
  | CAttribute => "Attribute"
  | CGenericAlias => "_GenericAlias"
  | CUser u => uclass_name u
  end.

(** ** Values *)

(** Identity of an iterator object in the store. *)
Definition loc := nat.

Inductive val :=
| VNone
| VBool (b : bool)
| VInt (n : Z)
| VStr (s : string)
| VList (xs : list val)
| VTuple (xs : list val)
| VSet (xs : list val)
| VFrozenset (xs : list val)
| VType (c : pyclass)
| VIter (l : loc)
| VAttribute (name : string)
| VIterable
| VObj (u : uclass) (id : nat).

(** [VSet]/[VFrozenset] list their elements in iteration order. [VIter l] is a
    reference to the list iterator stored at [l]; [VAttribute n] is an
    [attr.Attribute] whose [name] is [n] (the only field the module reads);
    [VIterable] is the object [typing.Iterable]; [VObj u id] is the instance
    number [id] of the user class [u]. *)

(** [type(v)] *)
Definition type_of (v : val) : pyclass :=
  match v with
  | VNone => CNoneType
  | VBool _ => Cbool
  | VInt _ => Cint
  | VStr _ => Cstr
  | VList _ => Clist
  | VTuple _ => Ctuple
  | VSet _ => Cset
  | VFrozenset _ => Cfrozenset
  | VType _ => Ctype
  | VIter _ => Clist_iterator
  | VAttribute _ => CAttribute
  | VIterable => CGenericAlias
  | VObj u _ => CUser u
  end.

(** A generator object that has not been advanced yet, given by the outcomes
    its body produces, in order. The generators of the module are created and
    used inside one call, so they need no cell in the store. *)
Inductive generator (A : Type) := Generator (pending : list A).
Arguments Generator {A} pending.

Definition pending {A} (g : generator A) : list A :=
  match g with Generator p => p end.

(** Truth value of a generator object: the class defines neither [__bool__] nor
    [__len__], so every generator is true. *)
Definition generator_truth {A} (g : generator A) : bool := true.

(** What [str.format] can be handed by the module: a value, or the generator
    made by [oxford_comma]. *)
Inductive obj :=
| OVal (v : val)
| OGen (g : generator string).

Definition obj_class (o : obj) : pyclass :=
  match o with OVal v => type_of v | OGen _ => Cgenerator end.

(** ** Exceptions, results, store *)

Inductive exn_class := TypeError | ValueError | AttributeError | KeyError | IndexError.

#[global] Instance exn_class_eq_dec : EqDecision exn_class.
Proof. solve_decision. Defined.

(** An exception: its class, its [args] and its [__context__]. *)
Inductive exn := Exn (cls : exn_class) (args : list val) (context : option exn).

Definition exn_cls (e : exn) : exn_class := match e with Exn k _ _ => k end.
Definition exn_args (e : exn) : list val := match e with Exn _ a _ => a end.
Definition exn_context (e : exn) : option exn := match e with Exn _ _ c => c end.

Inductive result (A : Type) :=
| Ok (a : A)
| Raise (e : exn).
Arguments Ok {A} a.
Arguments Raise {A} e.

(** The store: what each iterator object still has to yield. *)
Abbreviation heap := (gmap loc (list val)).

Definition M (A : Type) : Type := heap -> result A * heap.

Definition ret {A} (a : A) : M A := fun h => (Ok a, h).
Definition raise {A} (e : exn) : M A := fun h => (Raise e, h).
Definition lift {A} (r : result A) : M A := fun h => (r, h).

Definition bind {A B} (m : M A) (k : A -> M B) : M B :=
  fun h => match m h with
           | (Ok a, h') => k a h'
           | (Raise e, h') => (Raise e, h')
           end.

Notation "'let*' x ':=' m 'in' k" := (bind m (fun x => k))
  (at level 10, x name, m at level 100, k at level 200, only parsing).
Notation "m ';;' k" := (bind m (fun _ => k))
  (at level 100, k at level 200, right associativity, only parsing).

(** An exception raised while another one is handled gets the handled one as
    its [__context__]. *)
Definition set_context (handled e : exn) : exn :=
  match e with
  | Exn k a None => Exn k a (Some handled)
  | _ => e
  end.

(** [try: body  except cls: handler] *)
Definition try_except {A} (body : M A) (cls : exn_class) (handler : M A) : M A :=
  fun h => match body h with
           | (Ok a, h') => (Ok a, h')
           | (Raise e, h') =>
               if bool_decide (exn_cls e = cls) then
                 match handler h' with
                 | (Ok a, h'') => (Ok a, h'')
                 | (Raise e', h'') => (Raise (set_context e e'), h'')
                 end
               else (Raise e, h')
           end.

Definition type_error (msg : string) : exn := Exn TypeError [VStr msg] None.

(** ** Builtins *)

(** [x == y] on the universe. [bool] is a subclass of [int] and compares as
    the numbers 0 and 1; sets compare by mutual inclusion, also a [set] with a
    [frozenset]; classes, iterators and plain instances compare by identity. *)
Fixpoint py_eqb (x y : val) : bool :=
  let fix seq_eqb (xs ys : list val) : bool :=
    match xs, ys with
    | [], [] => true
    | x :: xs', y :: ys' => py_eqb x y && seq_eqb xs' ys'
    | _, _ => false
    end in
  let set_eqb (xs ys : list val) : bool :=
    forallb (fun x => existsb (fun y => py_eqb x y) ys) xs
    && (length xs =? length ys)%nat in
  match x, y with
  | VNone, VNone => true
  | VBool a, VBool b => bool_decide (a = b)
  | VBool a, VInt n => bool_decide (n = (if a then 1 else 0)%Z)
  | VInt n, VBool b => bool_decide (n = (if b then 1 else 0)%Z)
  | VInt n, VInt m => bool_decide (n = m)
  | VStr s, VStr t => bool_decide (s = t)
  | VList xs, VList ys => seq_eqb xs ys
  | VTuple xs, VTuple ys => seq_eqb xs ys
  | VSet xs, VSet ys | VSet xs, VFrozenset ys
  | VFrozenset xs, VSet ys | VFrozenset xs, VFrozenset ys => set_eqb xs ys
  | VType c, VType d => bool_decide (c = d)
  | VIter l, VIter k => bool_decide (l = k)
  | VAttribute n, VAttribute m => bool_decide (n = m)
  | VIterable, VIterable => true
  | VObj u i, VObj w j => bool_decide (u = w) && bool_decide (i = j)
  | _, _ => false
  end.

(** The class named by [TypeError: unhashable type], if [hash(v)] raises. *)
Fixpoint unhashable (v : val) : option pyclass :=
  match v with
  | VList _ => Some Clist
  | VSet _ => Some Cset
  | VTuple xs =>
      (fix go (xs : list val) : option pyclass :=
         match xs with
         | [] => None
         | x :: xs' => match unhashable x with
                       | Some c => Some c
                       | None => go xs'
                       end
         end) xs
  | _ => None
  end.

Fixpoint first_unhashable (args : list val) : option pyclass :=
  match args with
  | [] => None
  | x :: args' => match unhashable x with
                  | Some c => Some c
                  | None => first_unhashable args'
                  end
  end.

(** Adding one element to a set under construction. *)
Definition set_add (acc : list val) (x : val) : list val :=
  if existsb (py_eqb x) acc then acc else acc ++ [x].

(** [frozenset(args)] for a tuple [args]. *)
Definition py_frozenset (args : list val) : M val :=
  match first_unhashable args with
  | Some c => raise (type_error ("unhashable type: '" +:+ class_name c +:+ "'"))
  | None => ret (VFrozenset (fold_left set_add args []))
  end.

(** [any(g)] for a generator of booleans: stops at the first true outcome, and
    at the first outcome that raises. *)
Fixpoint py_any (g : list (result bool)) : result bool :=
  match g with
  | [] => Ok false
  | Ok true :: _ => Ok true
  | Ok false :: g' => py_any g'
  | Raise e :: _ => Raise e
  end.

(** [isinstance(v, t)]; [t] is a class or a tuple of such. *)
Fixpoint py_isinstance (v t : val) : result bool :=
  match t with
  | VType c => Ok (subclass_of_class (type_of v) c)
  | VTuple ts =>
      (fix go (ts : list val) : result bool :=
         match ts with
         | [] => Ok false
         | t' :: ts' => match py_isinstance v t' with
                        | Ok true => Ok true
                        | Ok false => go ts'
                        | Raise e => Raise e
                        end
         end) ts
  | _ => Raise (type_error
           "isinstance() arg 2 must be a type or tuple of types")
  end.

(** [issubclass(v, t)]; raises [TypeError] when [v] is not a class. *)
Fixpoint py_issubclass (v t : val) : result bool :=
  match t with
  | VTuple ts =>
      (fix go (ts : list val) : result bool :=
         match ts with
         | [] => Ok false
         | t' :: ts' => match py_issubclass v t' with
                        | Ok true => Ok true
                        | Ok false => go ts'
                        | Raise e => Raise e
                        end
         end) ts
  | _ =>
      match v with
      | VType c =>
          match t with
          | VType d => Ok (subclass_of_class c d)
          | _ => Raise (type_error
                   "issubclass() arg 2 must be a class or tuple of classes")
          end
      | _ => Raise (type_error "issubclass() arg 1 must be a class")
      end
  end.

(** [len(v)] *)
Definition py_len (v : val) : result nat :=
  match v with
  | VStr s => Ok (String.length s)
  | VList xs | VTuple xs | VSet xs | VFrozenset xs => Ok (length xs)
  | _ => Raise (type_error
           ("object of type '" +:+ class_name (type_of v) +:+ "' has no len()"))
  end.

Fixpoint chars (s : string) : list val :=
  match s with
  | EmptyString => []
  | String c s' => VStr (String c EmptyString) :: chars s'
  end.

(** The iterator [iter(v)] returns: a new one over the elements of a
    container, or [v] itself when [v] is an iterator. *)
Inductive iterator :=
| ItFresh (xs : list val)
| ItRef (l : loc).

Definition py_iter (v : val) : M iterator :=
  match v with
  | VList xs | VTuple xs | VSet xs | VFrozenset xs => ret (ItFresh xs)
  | VStr s => ret (ItFresh (chars s))
  | VIter l => ret (ItRef l)
  | _ => raise (type_error
           ("'" +:+ class_name (type_of v) +:+ "' object is not iterable"))
  end.

Fixpoint for_fresh (xs : list val) (body : val -> M unit) : M unit :=
  match xs with
  | [] => ret tt
  | x :: xs' => body x ;; for_fresh xs' body
  end.

(** Looping over the iterator stored at [l], which still holds [xs]: every
    step takes one element out of the store before the body runs. *)
Fixpoint for_ref (l : loc) (xs : list val) (body : val -> M unit) : M unit :=
  match xs with
  | [] => ret tt
  | x :: xs' => (fun h => (Ok tt, <[l := xs']> h)) ;; body x ;; for_ref l xs' body
  end.

(** [for x in g: body] *)
Definition for_in (g : iterator) (body : val -> M unit) : M unit :=
  match g with
  | ItFresh xs => for_fresh xs body
  | ItRef l => fun h => for_ref l (default [] (h !! l)) body h
  end.

(** [a.name] *)
Definition attr_name (a : val) : M val :=
  match a with
  | VAttribute n => ret (VStr n)
  | _ => raise (Exn AttributeError
           [VStr ("'" +:+ class_name (type_of a) +:+ "' object has no attribute 'name'")]
           None)
  end.

(** A stand-in for [repr], [str] and [ascii], to run the model on concrete
    inputs: it prints the class of the object. No result depends on it. *)
Definition class_repr (o : obj) : string :=
  "<" +:+ class_name (obj_class o) +:+ ">".

(** ** [str.format] *)

Section Runtime.

(** [repr(o)], [str(o)] and [ascii(o)] are the runtime's; the model takes them
    as they are. *)
Variable py_repr : obj -> string.
Variable py_str : obj -> string.
Variable py_ascii : obj -> string.

(** [format(o, spec)]. [str] and [int] bring their own [__format__]; every
    other class of the universe inherits [object.__format__], which accepts
    the empty spec only. Of the format-spec mini-language the empty spec and
    [s] are modelled, the two the templates of the module use. *)
Definition py_format (o : obj) (spec : string) : result string :=
  match o with
  | OVal (VStr s) =>
      if bool_decide (spec = "") || bool_decide (spec = "s") then Ok s
      else Raise (Exn ValueError [VStr "Invalid format specifier"] None)
  | OVal (VInt _) | OVal (VBool _) =>
      if bool_decide (spec = "") then Ok (py_str o)
      else if bool_decide (spec = "s") then
        Raise (Exn ValueError
          [VStr ("Unknown format code 's' for object of type '"
                 +:+ class_name (obj_class o) +:+ "'")] None)
      else Raise (Exn ValueError [VStr "Invalid format specifier"] None)
  | _ =>
      if bool_decide (spec = "") then Ok (py_str o)
      else Raise (type_error
             ("unsupported format string passed to "
              +:+ class_name (obj_class o) +:+ ".__format__"))
  end.

(** A replacement field [{name!conv:spec}] split in its three parts. Names
    with attribute or index access are not modelled. *)
Fixpoint break_name (f : string) : string * string :=
  match f with
  | EmptyString => ("", "")
  | String c f' =>
      if bool_decide (c = "!"%char) || bool_decide (c = ":"%char) then ("", f)
      else let (n, t) := break_name f' in (String c n, t)
  end.

Definition parse_field (f : string) : result (string * option ascii * string) :=
  let (name, t) := break_name f in
  match t with
  | EmptyString => Ok (name, None, "")
  | String c t' =>
      if bool_decide (c = ":"%char) then Ok (name, None, t')
      else
        match t' with
        | EmptyString =>
            Raise (Exn ValueError
              [VStr "end of string while looking for conversion specifier"] None)
        | String conv EmptyString => Ok (name, Some conv, "")
        | String conv (String d spec) =>
            if bool_decide (d = ":"%char) then Ok (name, Some conv, spec)
            else Raise (Exn ValueError
                   [VStr "expected ':' after conversion specifier"] None)
        end
  end.

Definition is_digit (c : ascii) : bool :=
  let n := nat_of_ascii c in (48 <=? n)%nat && (n <=? 57)%nat.

Fixpoint all_digits (s : string) : bool :=
  match s with
  | EmptyString => true
  | String c s' => is_digit c && all_digits s'
  end.

Fixpoint digits_value (acc : nat) (s : string) : nat :=
  match s with
  | EmptyString => acc
  | String c s' => digits_value (10 * acc + (nat_of_ascii c - 48)) s'
  end.

(** Automatic ([{}]) and manual ([{0}]) numbering cannot be mixed. *)
Inductive numbering :=
| NumUnset
| NumAuto (next : nat)
| NumManual.

Definition positional (args : list obj) (i : nat) : result obj :=
  match args !! i with
  | Some o => Ok o
  | None => Raise (Exn IndexError [VStr "tuple index out of range"] None)
  end.

Fixpoint keyword (kwargs : list (string * obj)) (name : string) : result obj :=
  match kwargs with
  | [] => Raise (Exn KeyError [VStr name] None)
  | (k, o) :: kwargs' => if bool_decide (k = name) then Ok o else keyword kwargs' name
  end.

Definition get_field (args : list obj) (kwargs : list (string * obj))
    (num : numbering) (name : string) : result (obj * numbering) :=
  if bool_decide (name = "") then
    match num with
    | NumManual =>
        Raise (Exn ValueError
          [VStr "cannot switch from manual field specification to automatic field numbering"]
          None)
    | NumUnset => match positional args 0 with
                  | Ok o => Ok (o, NumAuto 1)
                  | Raise e => Raise e
                  end
    | NumAuto i => match positional args i with
                   | Ok o => Ok (o, NumAuto (S i))
                   | Raise e => Raise e
                   end
    end
  else if all_digits name then
    match num with
    | NumAuto _ =>
        Raise (Exn ValueError
          [VStr "cannot switch from automatic field numbering to manual field specification"]
          None)
    | _ => match positional args (digits_value 0 name) with
           | Ok o => Ok (o, NumManual)
           | Raise e => Raise e
           end
    end
  else
    match keyword kwargs name with
    | Ok o => Ok (o, num)
    | Raise e => Raise e
    end.

Definition convert (o : obj) (conv : option ascii) : result obj :=
  match conv with
  | None => Ok o
  | Some c =>
      if bool_decide (c = "r"%char) then Ok (OVal (VStr (py_repr o)))
      else if bool_decide (c = "s"%char) then Ok (OVal (VStr (py_str o)))
      else if bool_decide (c = "a"%char) then Ok (OVal (VStr (py_ascii o)))
      else Raise (Exn ValueError
             [VStr ("Unknown conversion specifier " +:+ String c "")] None)
  end.

(** One replacement field: look the object up, convert it, format it. *)
Definition render_field (args : list obj) (kwargs : list (string * obj))
    (num : numbering) (f : string) : result (string * numbering) :=
  match parse_field f with
  | Raise e => Raise e
  | Ok (name, conv, spec) =>
      match get_field args kwargs num name with
      | Raise e => Raise e
      | Ok (o, num') =>
          match convert o conv with
          | Raise e => Raise e
          | Ok o' =>
              match py_format o' spec with
              | Raise e => Raise e
              | Ok s => Ok (s, num')
              end
          end
      end
  end.

(** Where the scanner of the template stands: in literal text, after one
    opening or closing brace, or inside a replacement field. *)
Inductive scan :=
| Text
| Opened
| Closed
| Field (acc : string).

(** [t.format] applied to positional [args] and keyword [kwargs], left to right: the first field that
    fails ends the call. Nested replacement fields inside a format spec are
    not modelled. *)
Fixpoint format_from (st : scan) (num : numbering) (out : string)
    (args : list obj) (kwargs : list (string * obj)) (t : string) : result string :=
  match t with
  | EmptyString =>
      match st with
      | Text => Ok out
      | Opened =>
          Raise (Exn ValueError [VStr "Single '{' encountered in format string"] None)
      | Closed =>
          Raise (Exn ValueError [VStr "Single '}' encountered in format string"] None)
      | Field _ =>
          Raise (Exn ValueError [VStr "expected '}' before end of string"] None)
      end
  | String c t' =>
      match st with
      | Text =>
          if bool_decide (c = "{"%char) then format_from Opened num out args kwargs t'
          else if bool_decide (c = "}"%char) then format_from Closed num out args kwargs t'
          else format_from Text num (out +:+ String c "") args kwargs t'
      | Opened =>
          if bool_decide (c = "{"%char) then
            format_from Text num (out +:+ "{") args kwargs t'
          else if bool_decide (c = "}"%char) then
            match render_field args kwargs num "" with
            | Raise e => Raise e
            | Ok (s, num') => format_from Text num' (out +:+ s) args kwargs t'
            end
          else format_from (Field (String c "")) num out args kwargs t'
      | Closed =>
          if bool_decide (c = "}"%char) then
            format_from Text num (out +:+ "}") args kwargs t'
          else
            Raise (Exn ValueError [VStr "Single '}' encountered in format string"] None)
      | Field acc =>
          if bool_decide (c = "}"%char) then
            match render_field args kwargs num acc with
            | Raise e => Raise e
            | Ok (s, num') => format_from Text num' (out +:+ s) args kwargs t'
            end
          else if bool_decide (c = "{"%char) then
            Raise (Exn ValueError [VStr "unexpected '{' in field name"] None)
          else format_from (Field (acc +:+ String c "")) num out args kwargs t'
      end
  end.

Definition str_format (t : string) (args : list obj) (kwargs : list (string * obj))
    : result string :=
  format_from Text NumUnset "" args kwargs t.

(** ** The module [attrstance.validators] *)

(** The items [enumerate(args, i)] still has to give, for [len(args) = len]. *)
Fixpoint oxford_yields (i len : nat) (args : list val) : list string :=
  match args with
  | [] => []
  | _ :: args' =>
      (if (i <? len)%nat then "{!r}" else "or {!r}") :: oxford_yields (S i) len args'
  end.

Definition oxford_comma (args : list val) : generator string :=
  let n := if (1 <? length args)%nat then 1%nat else 0%nat in
  Generator (oxford_yields n (length args) args).

Definition error_message (args : list val) : result string :=
  let j := oxford_comma args in
  str_format
    "'{{name:s}}' {{constraint:s}} {:s} ({{compliment:s}} {{value!r}} that is {{actual!r}})"
    [OGen j] [].

Definition format_message (a : val) (s : string) (v : val) (c : string)
    (t : list val) : M string :=
  let* m := lift (error_message t) in
  let* name := attr_name a in
  lift (str_format m (map OVal t)
          [("name", OVal name); ("constraint", OVal (VStr c));
           ("compliment", OVal (VStr s)); ("value", OVal v);
           ("actual", OVal (VType (type_of v)))]).

(** The four concrete classes; [TypeValidator] itself has no [__call__]. *)
Inductive validator_class := InstanceOf | SubclassOf | AllInstanceOf | AllSubclassOf.

#[global] Instance validator_class_eq_dec : EqDecision validator_class.
Proof. solve_decision. Defined.

(** An instance: frozen, with the single slot [whitelist]. *)
Record validator := { vclass : validator_class; whitelist : val }.

Definition validator_class_name (k : validator_class) : string :=
  match k with
  | InstanceOf => "InstanceOf"
  | SubclassOf => "SubclassOf"
  | AllInstanceOf => "AllInstanceOf"
  | AllSubclassOf => "AllSubclassOf"
  end.

(** The names the source defines on a class and its bases. *)
Definition class_namespace (k : validator_class) : list string :=
  let base := ["whitelist"; "is_frozenset"; "not_empty"; "only_types"] in
  match k with
  | InstanceOf | AllInstanceOf => ["__call__"; "is_instance"] ++ base
  | SubclassOf | AllSubclassOf => ["__call__"; "is_subclass"] ++ base
  end.

(** The elements a [for] over the whitelist visits. The whitelist of an
    instance is a frozenset: [is_frozenset] ran in its constructor. *)
Definition members (w : val) : list val :=
  match w with
  | VList xs | VTuple xs | VSet xs | VFrozenset xs => xs
  | VStr s => chars s
  | _ => []
  end.

(** The [attr.Attribute] of the field [whitelist], handed to its validators. *)
Definition whitelist_attribute : val := VAttribute "whitelist".

Definition is_frozenset (self : validator) (a v : val) : M unit :=
  let* b := lift (py_isinstance v (VType Cfrozenset)) in
  if negb b then
    let* m := format_message a "is" v "must be" [VType Cfrozenset] in
    raise (Exn TypeError [VStr m; a; v] None)
  else ret tt.

Definition not_empty (self : validator) (a v : val) : M unit :=
  let* n := lift (py_len v) in
  if negb (0 <? n)%nat then
    let* m := format_message a "is" v "must be non-empty" [VType Cfrozenset] in
    raise (Exn TypeError [VStr m; a; v] None)
  else ret tt.

Definition only_types (self : validator) (a v : val) : M unit :=
  let* g := py_iter v in
  for_in g (fun x =>
    let* b := lift (py_isinstance x (VType Ctype)) in
    if negb b then
      let* m := format_message a "has" x "must contain" [VType Ctype] in
      raise (Exn TypeError [VStr m; a; x] None)
    else ret tt).

(** The constructor attrs generates: store the argument, then run the three
    validators of the field in the order of their definition. *)
Definition new (k : validator_class) (w : val) : M validator :=
  let self := {| vclass := k; whitelist := w |} in
  is_frozenset self whitelist_attribute w ;;
  not_empty self whitelist_attribute w ;;
  only_types self whitelist_attribute w ;;
  ret self.

Definition is_instance (self : validator) (v : val) : generator (result bool) :=
  Generator (map (fun t => py_isinstance v t) (members (whitelist self))).

Definition InstanceOf_call (self : validator) (i a v : val) : M unit :=
  let* t := lift (py_any (pending (is_instance self v))) in
  if negb t then
    let* m := format_message a "is" v "must be" (members (whitelist self)) in
    raise (Exn TypeError [VStr m; a; whitelist self; v] None)
  else ret tt.

Definition instance_of (args : list val) : M validator :=
  let* w := py_frozenset args in new InstanceOf w.

Definition is_subclass (self : validator) (v : val) : generator (result bool) :=
  Generator (map (fun c => py_issubclass v c) (members (whitelist self))).

Definition SubclassOf_call (self : validator) (c a v : val) : M unit :=
  let* t :=
    try_except (lift (py_any (pending (is_subclass self v)))) TypeError
      (let* m := format_message a "is" v "must be" [VType Ctype] in
       raise (Exn TypeError [VStr m; a; v] None)) in
  if negb t then
    let* m := format_message a "is" v "must be a subclass of"
                (members (whitelist self)) in
    raise (Exn TypeError [VStr m; a; whitelist self; v] None)
  else ret tt.

Definition subclass_of (args : list val) : M validator :=
  let* w := py_frozenset args in new SubclassOf w.

Definition AllInstanceOf_call (self : validator) (c a v : val) : M unit :=
  let* g :=
    try_except (py_iter v) TypeError
      (let* m := format_message a "is" v "must be" [VIterable] in
       raise (Exn TypeError [VStr m; a; v] None)) in
  for_in g (fun x =>
    if negb (generator_truth (is_instance self x)) then
      let* m := format_message a "has" x "must contain"
                  (members (whitelist self)) in
      raise (Exn TypeError [VStr m; a; whitelist self; v] None)
    else ret tt).

Definition all_instance_of (args : list val) : M validator :=
  let* w := py_frozenset args in new AllInstanceOf w.

(** [self.format_message(...)]: the attribute is looked up on the instance
    first. The function [format_message] belongs to the module, not to a
    class, and the instances have slots only. *)
Definition self_format_message (self : validator) (a : val) (s : string)
    (v : val) (c : string) (t : list val) : M string :=
  if bool_decide ("format_message" ∈ class_namespace (vclass self)) then
    format_message a s v c t
  else
    raise (Exn AttributeError
      [VStr ("'" +:+ validator_class_name (vclass self)
             +:+ "' object has no attribute 'format_message'")] None).

Definition AllSubclassOf_call (self : validator) (c a v : val) : M unit :=
  let* g :=
    try_except (py_iter v) TypeError
      (let* m := self_format_message self a "is" v "must be" [VIterable] in
       raise (Exn TypeError [VStr m; a; v] None)) in
  for_in g (fun x =>
    let* t :=
      try_except (lift (py_any (pending (is_subclass self x)))) TypeError
        (let* m := self_format_message self a "has" x "must contain" [VType Ctype] in
         raise (Exn TypeError [VStr m; a; v] None)) in
    if negb t then
      let* m := self_format_message self a "has" x "must contain subclass of"
                  (members (whitelist self)) in
      raise (Exn TypeError [VStr m; a; whitelist self; v] None)
    else ret tt).

Definition all_subclass_of (args : list val) : M validator :=
  let* w := py_frozenset args in new SubclassOf w.

(** [p(i, a, v)]: the [__call__] of the class of [p]. *)
Definition call (p : validator) (i a v : val) : M unit :=
  match vclass p with
  | InstanceOf => InstanceOf_call p i a v
  | SubclassOf => SubclassOf_call p i a v
  | AllInstanceOf => AllInstanceOf_call p i a v
  | AllSubclassOf => AllSubclassOf_call p i a v
  end.

(** The error [str.format] raises when it is handed the generator. *)
Definition format_error : exn :=
  type_error "unsupported format string passed to generator.__format__".

(** A computation that leaves every iterator of the store where it was. *)
Definition preserves {A} (m : M A) : Prop := ∀ h, (m h).2 = h.

(** A result that is an exception. *)
Definition raises {A} (r : result A) : Prop := ∃ e, r = Raise e.

Definition is_type (v : val) : bool :=
  match v with VType _ => true | _ => false end.

(** [v] is an instance of the class [c]. *)
Definition isinstance_class (v : val) (c : pyclass) : bool :=
  subclass_of_class (type_of v) c.

(** The three invariants of a whitelist: a frozenset, not empty, of classes. *)
Definition valid_whitelist (w : val) : bool :=
  match w with
  | VFrozenset xs => (0 <? length xs)%nat && forallb is_type xs
  | _ => false
  end.

(** The four factory functions of the module. *)
Definition factories : list (list val → M validator) :=
  [instance_of; subclass_of; all_instance_of; all_subclass_of].

(** Two results are the same outcome: both a return, or both an exception
    of the same class. *)
Definition same_outcome {A} (r1 r2 : result A) : Prop :=
  match r1, r2 with
  | Ok _, Ok _ => True
  | Raise e1, Raise e2 => exn_cls e1 = exn_cls e2
  | _, _ => False
  end.

(** [p(i, a, v)] twice in a row from the store [h]: the outcomes are the
    same and neither call changes an object of the store. *)
Definition repeatable (p : validator) (i a v : val) (h : heap) : Prop :=
  let '(r1, h1) := call p i a v h in
  let '(r2, h2) := call p i a v h1 in
  same_outcome r1 r2 ∧ h1 = h ∧ h2 = h1.


(** [x] is a class, and a subclass of some member of [T]. *)
Definition subclass_ok (T : list pyclass) (x : val) : bool :=
  match x with
  | VType d => existsb (subclass_of_class d) T
  | _ => false
  end.

(** The body of the loop of [AllInstanceOf.__call__]. *)
Definition AllInstanceOf_body (self : validator) (a v : val) : val → M unit :=
  λ x,
    if negb (generator_truth (is_instance self x)) then
      let* m := format_message a "has" x "must contain"
                  (members (whitelist self)) in
      raise (Exn TypeError [VStr m; a; whitelist self; v] None)
    else ret tt.

(** The body of the loop of [AllSubclassOf.__call__]. *)
Definition AllSubclassOf_body (self : validator) (a v : val) : val → M unit :=
  λ x,
    let* t :=
      try_except (lift (py_any (pending (is_subclass self x)))) TypeError
        (let* m := self_format_message self a "has" x "must contain" [VType Ctype] in
         raise (Exn TypeError [VStr m; a; v] None)) in
    if negb t then
      let* m := self_format_message self a "has" x "must contain subclass of"
                  (members (whitelist self)) in
      raise (Exn TypeError [VStr m; a; whitelist self; v] None)
    else ret tt.



(** * Properties *)

(** ** The message formatter *)

Lemma error_message_fails (t : list val) : error_message t = Raise format_error.
Proof. reflexivity. Qed.

Lemma format_message_fails a s v c t (h : heap) :
  format_message a s v c t h = (Raise format_error, h).
Proof.
  unfold format_message, bind, lift. rewrite error_message_fails. reflexivity.
Qed.

(** The scanner itself is sound: handed the joined string the docstring of
    [error_message] describes, the same template gives the un-formatted
    message. *)
Example str_format_joined :
  str_format
    "'{{name:s}}' {{constraint:s}} {:s} ({{compliment:s}} {{value!r}} that is {{actual!r}})"
    [OVal (VStr "{!r} or {!r}")] []
  = Ok "'{name:s}' {constraint:s} {!r} or {!r} ({compliment:s} {value!r} that is {actual!r})".
Proof. reflexivity. Qed.

Lemma oxford_comma_one x : oxford_comma [x] = Generator ["{!r}"].
Proof. reflexivity. Qed.

Lemma oxford_comma_two x y : oxford_comma [x; y] = Generator ["{!r}"; "or {!r}"].
Proof. reflexivity. Qed.

Lemma oxford_yields_last i x xs :
  oxford_yields i (i + length xs) (xs ++ [x])%list
  = (replicate (length xs) "{!r}" ++ ["or {!r}"])%list.
Proof.
  revert i. induction xs as [|y xs IH]; intros i; simpl.
  - replace (i + 0)%nat with i by lia. rewrite Nat.ltb_irrefl. reflexivity.
  - assert (Hlt : (i <? i + S (length xs))%nat = true) by (apply Nat.ltb_lt; lia).
    rewrite Hlt. f_equal.
    replace (i + S (length xs))%nat with (S i + length xs)%nat by lia.
    apply IH.
Qed.

(** Three items or more: every item but the last yields the plain
    placeholder, the last one the placeholder after "or". *)
Lemma oxford_comma_many x y xs z :
  oxford_comma (x :: y :: xs ++ [z])%list
  = Generator (replicate (S (S (length xs))) "{!r}" ++ ["or {!r}"])%list.
Proof.
  unfold oxford_comma. simpl length. rewrite length_app. simpl.
  replace (length xs + 1)%nat with (S (length xs)) by lia.
  assert (H2 : (2 <? S (S (S (length xs))))%nat = true) by (apply Nat.ltb_lt; lia).
  rewrite H2. do 3 f_equal.
  exact (oxford_yields_last 3 z xs).
Qed.


(** ** Builtins on classes *)

Lemma existsb_elem_of {A} (f : A → bool) (l : list A) :
  existsb f l = true ↔ ∃ x, x ∈ l ∧ f x = true.
Proof.
  induction l as [|y l IH]; simpl.
  - split; [discriminate | intros (x & Hx & _); inversion Hx].
  - rewrite orb_true_iff, IH. split.
    + intros [Hy | (x & Hx & Hf)]; [exists y | exists x]; split; auto; constructor; auto.
    + intros (x & Hx & Hf). apply elem_of_cons in Hx as [-> | Hx]; eauto.
Qed.

Lemma existsb_false_elem_of {A} (f : A → bool) (l : list A) :
  existsb f l = false ↔ ∀ x, x ∈ l → f x = false.
Proof.
  split.
  - intros H x Hx. destruct (f x) eqn:Hf; [|reflexivity].
    rewrite <- H. symmetry. apply existsb_elem_of. eauto.
  - intros H. destruct (existsb f l) eqn:He; [|reflexivity].
    apply existsb_elem_of in He as (x & Hx & Hf). rewrite (H x Hx) in Hf. discriminate.
Qed.

Lemma py_any_isinstance (v : val) (T : list pyclass) :
  py_any (map (λ t, py_isinstance v t) (map VType T))
  = Ok (existsb (subclass_of_class (type_of v)) T).
Proof.
  induction T as [|t T IH]; simpl; [reflexivity|].
  destruct (subclass_of_class (type_of v) t); [reflexivity | exact IH].
Qed.

Lemma py_any_issubclass_class (c : pyclass) (T : list pyclass) :
  py_any (map (λ d, py_issubclass (VType c) d) (map VType T))
  = Ok (existsb (subclass_of_class c) T).
Proof.
  induction T as [|t T IH]; simpl; [reflexivity|].
  destruct (subclass_of_class c t); [reflexivity | exact IH].
Qed.

(** On a candidate that is no class, the first [issubclass] of the generator
    raises. *)
Lemma py_any_issubclass_other (v : val) (t : pyclass) (T : list pyclass) :
  is_type v = false →
  py_any (map (λ d, py_issubclass v d) (map VType (t :: T)))
  = Raise (type_error "issubclass() arg 1 must be a class").
Proof. intros Hv. destruct v; try discriminate Hv; reflexivity. Qed.

Lemma frozenset_not_in_umro (u : uclass) : Cfrozenset ∉ umro u.
Proof.
  induction u as [n | n b IH]; simpl; intros H.
  - apply elem_of_cons in H as [H | H]; [discriminate|].
    apply list_elem_of_singleton in H. discriminate.
  - apply elem_of_cons in H as [H | H]; [discriminate | exact (IH H)].
Qed.

(** [isinstance(v, frozenset)] holds for frozensets only. *)
Lemma isinstance_frozenset (v : val) :
  subclass_of_class (type_of v) Cfrozenset = bool_decide (type_of v = Cfrozenset).
Proof.
  unfold subclass_of_class.
  destruct v; try reflexivity.
  simpl. rewrite bool_decide_eq_false_2 by apply frozenset_not_in_umro.
  reflexivity.
Qed.

(** ** Sets of classes *)

Lemma py_eqb_class (c d : pyclass) : py_eqb (VType c) (VType d) = bool_decide (c = d).
Proof. reflexivity. Qed.

(** Only a class equals a class. *)
Lemma py_eqb_is_type (x y : val) : py_eqb x y = true → is_type x = is_type y.
Proof. destruct x, y; simpl; try reflexivity; discriminate. Qed.

Lemma first_unhashable_classes (T : list pyclass) : first_unhashable (map VType T) = None.
Proof. induction T; simpl; auto. Qed.

Lemma set_add_class (acc : list pyclass) (c : pyclass) :
  set_add (map VType acc) (VType c)
  = map VType (if bool_decide (c ∈ acc) then acc else acc ++ [c])%list.
Proof.
  unfold set_add.
  assert (H : existsb (py_eqb (VType c)) (map VType acc) = bool_decide (c ∈ acc)).
  { induction acc as [|a acc IH]; cbn [existsb map]; [reflexivity|].
    rewrite IH. rewrite py_eqb_class.
    destruct (decide (c = a)) as [-> | Hne].
    - rewrite (bool_decide_eq_true_2 (a = a)) by reflexivity.
      rewrite (bool_decide_eq_true_2 (a ∈ a :: acc)) by constructor.
      reflexivity.
    - rewrite (bool_decide_eq_false_2 (c = a)) by exact Hne. simpl.
      apply bool_decide_ext. rewrite elem_of_cons. naive_solver. }
  rewrite H. destruct (bool_decide (c ∈ acc)); [reflexivity|].
  rewrite map_app. reflexivity.
Qed.

(** [frozenset] of classes: a set of classes with the same members. *)
Lemma fold_set_add_classes (T acc : list pyclass) :
  ∃ T', fold_left set_add (map VType T) (map VType acc) = map VType T'
        ∧ ∀ t, t ∈ T' ↔ t ∈ acc ∨ t ∈ T.
Proof.
  revert acc. induction T as [|c T IH]; intros acc; simpl.
  - exists acc. split; [reflexivity|]. intros t. rewrite elem_of_nil. naive_solver.
  - rewrite set_add_class.
    destruct (IH (if bool_decide (c ∈ acc) then acc else acc ++ [c])%list) as (T' & HT' & Hin).
    exists T'. split; [exact HT'|]. intros t. rewrite Hin, elem_of_cons.
    case_bool_decide as Hc.
    + split; [naive_solver|]. intros [H | [-> | H]]; auto.
    + rewrite elem_of_app, list_elem_of_singleton. naive_solver.
Qed.

Lemma py_frozenset_classes (T : list pyclass) (h : heap) :
  ∃ T', py_frozenset (map VType T) h = (Ok (VFrozenset (map VType T')), h)
        ∧ (∀ t, t ∈ T' ↔ t ∈ T).
Proof.
  unfold py_frozenset. rewrite first_unhashable_classes.
  destruct (fold_set_add_classes T []) as (T' & HT' & Hin).
  exists T'. simpl in HT'. unfold ret. rewrite HT'. split; [reflexivity|].
  intros t. rewrite Hin, elem_of_nil. naive_solver.
Qed.


(** ** Construction *)

Lemma type_not_in_umro (u : uclass) : Ctype ∉ umro u.
Proof.
  induction u as [n | n b IH]; simpl; intros H.
  - apply elem_of_cons in H as [H | H]; [discriminate|].
    apply list_elem_of_singleton in H. discriminate.
  - apply elem_of_cons in H as [H | H]; [discriminate | exact (IH H)].
Qed.

(** [isinstance(x, type)] holds for classes only. *)
Lemma isinstance_type (x : val) : isinstance_class x Ctype = is_type x.
Proof.
  unfold isinstance_class, subclass_of_class. destruct x; try reflexivity.
  simpl. rewrite bool_decide_eq_false_2 by apply type_not_in_umro. reflexivity.
Qed.

Lemma is_frozenset_spec self a (w : val) (h : heap) :
  is_frozenset self a w h
  = (if bool_decide (type_of w = Cfrozenset) then Ok tt else Raise format_error, h).
Proof.
  unfold is_frozenset, bind, lift. cbn [py_isinstance].
  rewrite isinstance_frozenset. case_bool_decide; cbn [negb]; [reflexivity|].
  rewrite format_message_fails. reflexivity.
Qed.

Lemma not_empty_spec self a (xs : list val) (h : heap) :
  not_empty self a (VFrozenset xs) h
  = (if (0 <? length xs)%nat then Ok tt else Raise format_error, h).
Proof.
  unfold not_empty, bind, lift. cbn [py_len].
  destruct (0 <? length xs)%nat; cbn [negb]; [reflexivity|].
  rewrite format_message_fails. reflexivity.
Qed.

Lemma only_types_spec self a (xs : list val) (h : heap) :
  only_types self a (VFrozenset xs) h
  = (if forallb is_type xs then Ok tt else Raise format_error, h).
Proof.
  unfold only_types, bind at 1. cbn [py_iter ret for_in].
  induction xs as [|x xs IH]; cbn [for_fresh forallb]; [reflexivity|].
  unfold bind at 1. unfold bind at 1. unfold lift. cbn [py_isinstance].
  fold (isinstance_class x Ctype). rewrite isinstance_type.
  destruct (is_type x); cbn [negb andb].
  - exact IH.
  - unfold bind. rewrite format_message_fails. reflexivity.
Qed.

(** The constructor returns the instance when the three invariants hold, and
    raises otherwise; it never touches the store. *)
Lemma new_spec (k : validator_class) (w : val) (h : heap) :
  new k w h
  = (if valid_whitelist w then Ok {| vclass := k; whitelist := w |}
     else Raise format_error, h).
Proof.
  unfold new, bind at 1. rewrite is_frozenset_spec.
  destruct w; try reflexivity.
  rewrite bool_decide_eq_true_2 by reflexivity.
  unfold bind at 1. rewrite not_empty_spec. cbn [valid_whitelist].
  destruct (0 <? length xs)%nat; [|reflexivity].
  unfold bind at 1. rewrite only_types_spec.
  destruct (forallb is_type xs); reflexivity.
Qed.

Lemma valid_whitelist_classes (T : list pyclass) :
  T ≠ [] → valid_whitelist (VFrozenset (map VType T)) = true.
Proof.
  intros HT. cbn [valid_whitelist]. apply andb_true_iff. split.
  - destruct T; [done | reflexivity].
  - clear HT. induction T as [|t T IH]; [reflexivity | exact IH].
Qed.

Lemma nonempty_same_members {A} (T T' : list A) :
  (∀ t, t ∈ T' ↔ t ∈ T) → T ≠ [] → T' ≠ [].
Proof.
  intros Hin HT ->. destruct T as [|t T]; [done|].
  apply (elem_of_nil t), Hin. constructor.
Qed.

(** A factory handed classes only, at least one, returns an instance of its
    class over a frozenset with exactly these members. *)
Lemma factory_classes (k : validator_class) (T : list pyclass) (h : heap) :
  T ≠ [] →
  ∃ T', (let* w := py_frozenset (map VType T) in new k w) h
        = (Ok {| vclass := k; whitelist := VFrozenset (map VType T') |}, h)
        ∧ (∀ t, t ∈ T' ↔ t ∈ T).
Proof.
  intros HT. destruct (py_frozenset_classes T h) as (T' & Hw & Hin).
  exists T'. split; [|exact Hin].
  unfold bind. rewrite Hw, new_spec.
  rewrite valid_whitelist_classes; [reflexivity|].
  exact (nonempty_same_members T T' Hin HT).
Qed.

(** A value that is no class stays in the set under construction. *)
Lemma fold_set_add_other (args acc : list val) :
  (∃ x, (x ∈ acc ∨ x ∈ args) ∧ is_type x = false) →
  ∃ y, y ∈ fold_left set_add args acc ∧ is_type y = false.
Proof.
  revert acc. induction args as [|z args IH]; intros acc (x & Hx & Hty); simpl.
  - destruct Hx as [Hx | Hx]; [eauto | inversion Hx].
  - apply IH. unfold set_add.
    destruct (existsb (py_eqb z) acc) eqn:He.
    + destruct Hx as [Hx | Hx]; [eauto|].
      apply elem_of_cons in Hx as [-> | Hx]; [|eauto].
      apply existsb_elem_of in He as (y & Hy & Heq).
      exists y. split; [auto|]. rewrite <- (py_eqb_is_type _ _ Heq). exact Hty.
    + exists x. split; [|exact Hty]. rewrite elem_of_app, list_elem_of_singleton.
      destruct Hx as [Hx | Hx]; [auto|].
      apply elem_of_cons in Hx as [-> | Hx]; auto.
Qed.

Lemma forallb_is_type_false (xs : list val) (y : val) :
  y ∈ xs → is_type y = false → forallb is_type xs = false.
Proof.
  induction xs as [|x xs IH]; intros Hy Hty; [inversion Hy|].
  simpl. apply elem_of_cons in Hy as [<- | Hy].
  - rewrite Hty. reflexivity.
  - rewrite (IH Hy Hty). apply andb_false_r.
Qed.

(** No arguments, or an argument that is no class: the factory raises and no
    instance comes to exist. *)
Lemma factory_rejects (k : validator_class) (args : list val) (h : heap) :
  args = [] ∨ (∃ x, x ∈ args ∧ is_type x = false) →
  ∃ e, (let* w := py_frozenset args in new k w) h = (Raise e, h).
Proof.
  intros Hargs. unfold bind, py_frozenset.
  destruct (first_unhashable args) as [c|]; [eexists; reflexivity|].
  unfold ret. rewrite new_spec. exists format_error.
  assert (Hv : valid_whitelist (VFrozenset (fold_left set_add args [])) = false);
    [|rewrite Hv; reflexivity].
  destruct Hargs as [-> | (x & Hx & Hty)]; [reflexivity|].
  destruct (fold_set_add_other args []) as (y & Hy & Hyty); [eauto|].
  cbn [valid_whitelist]. rewrite (forallb_is_type_false _ y Hy Hyty).
  apply andb_false_r.
Qed.

Lemma factories_shape (f : list val → M validator) :
  f ∈ factories → ∃ k, f = λ args, let* w := py_frozenset args in new k w.
Proof.
  unfold factories. intros H.
  repeat (apply elem_of_cons in H as [-> | H]); [..|inversion H];
    eexists; reflexivity.
Qed.


(** ** Invocation *)

Lemma InstanceOf_call_spec (p : validator) (T : list pyclass) (i a v : val) (h : heap) :
  whitelist p = VFrozenset (map VType T) →
  InstanceOf_call p i a v h
  = (if existsb (isinstance_class v) T then Ok tt else Raise format_error, h).
Proof.
  intros Hw. unfold InstanceOf_call, is_instance, bind at 1. rewrite Hw.
  cbn [members pending lift]. rewrite py_any_isinstance.
  change (subclass_of_class (type_of v)) with (isinstance_class v).
  destruct (existsb (isinstance_class v) T); cbn [negb]; [reflexivity|].
  unfold bind. rewrite format_message_fails. reflexivity.
Qed.

Lemma SubclassOf_call_class (p : validator) (T : list pyclass) (i a : val)
    (c : pyclass) (h : heap) :
  whitelist p = VFrozenset (map VType T) →
  SubclassOf_call p i a (VType c) h
  = (if existsb (subclass_of_class c) T then Ok tt else Raise format_error, h).
Proof.
  intros Hw. unfold SubclassOf_call, is_subclass, bind at 1, try_except. rewrite Hw.
  cbn [members pending lift]. rewrite py_any_issubclass_class.
  destruct (existsb (subclass_of_class c) T); cbn [negb]; [reflexivity|].
  unfold bind. rewrite format_message_fails. reflexivity.
Qed.

(** On a value that is no class the handler runs, and the formatter fails
    inside it: the error that leaves the call is the formatter's, with the
    error of [issubclass] as its context. *)
Lemma SubclassOf_call_other (p : validator) (t : pyclass) (T : list pyclass)
    (i a v : val) (h : heap) :
  whitelist p = VFrozenset (map VType (t :: T)) →
  is_type v = false →
  SubclassOf_call p i a v h
  = (Raise (Exn TypeError
       [VStr "unsupported format string passed to generator.__format__"]
       (Some (type_error "issubclass() arg 1 must be a class"))), h).
Proof.
  intros Hw Hv. unfold SubclassOf_call, is_subclass, bind at 1, try_except. rewrite Hw.
  cbn [members pending lift]. rewrite (py_any_issubclass_other v t T Hv).
  cbn [exn_cls type_error]. rewrite bool_decide_eq_true_2 by reflexivity.
  unfold bind. rewrite format_message_fails. reflexivity.
Qed.

(** The loop of [AllInstanceOf.__call__] tests the generator object, which is
    true, and not what it yields: no element is ever refused. *)
Lemma AllInstanceOf_loop (p : validator) (a v : val) (xs : list val) (h : heap) :
  for_fresh xs (λ x,
    if negb (generator_truth (is_instance p x)) then
      let* m := format_message a "has" x "must contain" (members (whitelist p)) in
      raise (Exn TypeError [VStr m; a; whitelist p; v] None)
    else ret tt) h = (Ok tt, h).
Proof. induction xs as [|x xs IH]; [reflexivity | exact IH]. Qed.

Lemma AllInstanceOf_call_list (p : validator) (c a : val) (xs : list val) (h : heap) :
  AllInstanceOf_call p c a (VList xs) h = (Ok tt, h).
Proof. unfold AllInstanceOf_call, bind at 1. apply AllInstanceOf_loop. Qed.

Lemma self_format_message_fails (p : validator) a s v c t (h : heap) :
  self_format_message p a s v c t h
  = (Raise (Exn AttributeError
       [VStr ("'" +:+ validator_class_name (vclass p)
              +:+ "' object has no attribute 'format_message'")] None), h).
Proof. unfold self_format_message. destruct (vclass p); reflexivity. Qed.

(** One turn of the loop of [AllSubclassOf.__call__] on a class. *)
Lemma AllSubclassOf_loop_classes (p : validator) (T : list pyclass) (a v : val)
    (cs : list pyclass) (h : heap) :
  whitelist p = VFrozenset (map VType T) →
  (∀ c, c ∈ cs → existsb (subclass_of_class c) T = true) →
  for_fresh (map VType cs) (λ x,
    let* t :=
      try_except (lift (py_any (pending (is_subclass p x)))) TypeError
        (let* m := self_format_message p a "has" x "must contain" [VType Ctype] in
         raise (Exn TypeError [VStr m; a; v] None)) in
    if negb t then
      let* m := self_format_message p a "has" x "must contain subclass of"
                  (members (whitelist p)) in
      raise (Exn TypeError [VStr m; a; whitelist p; v] None)
    else ret tt) h = (Ok tt, h).
Proof.
  intros Hw Hcs.
  match goal with |- for_fresh _ ?b _ = _ => set (body := b) end.
  assert (Hstep : ∀ c, existsb (subclass_of_class c) T = true →
                       body (VType c) h = (Ok tt, h)).
  { intros c Hc. subst body. cbv beta.
    unfold bind at 1, try_except, is_subclass. rewrite Hw.
    cbn [members pending lift]. rewrite py_any_issubclass_class, Hc. reflexivity. }
  induction cs as [|c cs IH]; [reflexivity|].
  cbn [map for_fresh]. unfold bind at 1. rewrite Hstep by (apply Hcs; constructor).
  apply IH. intros d Hd. apply Hcs. constructor. exact Hd.
Qed.


(** ** The claims *)

(** C4. For a non-empty whitelist [T] of classes the predicate
    [instance_of(T...)] exists, and called with any owner, field and value it
    raises exactly when the value is an instance of no member of [T], and
    returns normally exactly when it is an instance of some member. *)
Theorem InstanceOf_raises_iff (T : list pyclass) (i a v : val) (h : heap) :
  T ≠ [] →
  ∃ p, instance_of (map VType T) h = (Ok p, h)
     ∧ vclass p = InstanceOf
     ∧ ((∃ e, InstanceOf_call p i a v h = (Raise e, h))
        ↔ ∀ t, t ∈ T → isinstance_class v t = false)
     ∧ (InstanceOf_call p i a v h = (Ok tt, h)
        ↔ ∃ t, t ∈ T ∧ isinstance_class v t = true).
Proof.
  intros HT. destruct (factory_classes InstanceOf T h HT) as (T' & Hp & Hin).
  eexists. split; [exact Hp|]. split; [reflexivity|].
  rewrite (InstanceOf_call_spec _ T') by reflexivity.
  destruct (existsb (isinstance_class v) T') eqn:He.
  - apply existsb_elem_of in He as (t & Ht & Hi). apply Hin in Ht. split.
    + split; [intros (e & He); discriminate He|].
      intros Hall. rewrite (Hall t Ht) in Hi. discriminate.
    + split; [eauto | reflexivity].
  - assert (Hall : ∀ t, t ∈ T → isinstance_class v t = false).
    { intros t Ht. apply Hin in Ht. revert t Ht. apply existsb_false_elem_of, He. }
    split.
    + split; [auto | eauto].
    + split; [discriminate|]. intros (t & Ht & Hi).
      rewrite (Hall t Ht) in Hi. discriminate.
Qed.

(** C10. Constructing a predicate of any class directly on a value that is
    not a frozenset raises, and it is the container check [is_frozenset] that
    raises: whether the elements are classes plays no part. *)
Theorem new_requires_frozenset (k : validator_class) (w : val) (h : heap) :
  type_of w ≠ Cfrozenset →
  ∃ e, is_frozenset {| vclass := k; whitelist := w |} whitelist_attribute w h
       = (Raise e, h)
     ∧ new k w h = (Raise e, h).
Proof.
  intros Hw. exists format_error. rewrite is_frozenset_spec, new_spec.
  rewrite bool_decide_eq_false_2 by exact Hw. split; [reflexivity|].
  destruct w; try reflexivity. contradiction Hw. reflexivity.
Qed.

(** C7. Violations of the whitelist invariants raise when the predicate is
    built: every factory raises on no arguments, and on arguments of which
    one is no class, so that no instance comes to exist; [instance_of(int)]
    returns a predicate that accepts every integer and raises on every
    string. *)
Theorem whitelist_checked_at_construction :
  (∀ f h, f ∈ factories → ∃ e, f [] h = (Raise e, h))
  ∧ (∀ f args h, f ∈ factories →
       (∃ x, x ∈ args ∧ is_type x = false) → ∃ e, f args h = (Raise e, h))
  ∧ (∀ h i a,
       ∃ p, instance_of [VType Cint] h = (Ok p, h)
          ∧ (∀ n, call p i a (VInt n) h = (Ok tt, h))
          ∧ (∀ s, ∃ e, call p i a (VStr s) h = (Raise e, h))).
Proof.
  split; [|split].
  - intros f h Hf. apply factories_shape in Hf as (k & ->).
    apply factory_rejects. left. reflexivity.
  - intros f args h Hf Hx. apply factories_shape in Hf as (k & ->).
    apply factory_rejects. right. exact Hx.
  - intros h i a. eexists. split; [reflexivity|]. split.
    + intros n. unfold call. cbn [vclass].
      rewrite (InstanceOf_call_spec _ [Cint]) by reflexivity. reflexivity.
    + intros s. exists format_error. unfold call. cbn [vclass].
      rewrite (InstanceOf_call_spec _ [Cint]) by reflexivity. reflexivity.
Qed.


(** C2. [format_message] returns no string: for every field, relation,
    value, constraint and expected types, [error_message] hands the generator
    of [oxford_comma] itself to the [{:s}] field of its template, and
    formatting a generator with a non-empty spec raises [TypeError]. *)
Theorem format_message_raises (a : val) (s : string) (v : val) (c : string)
    (t : list val) (h : heap) :
  format_message a s v c t h
  = (Raise (Exn TypeError
       [VStr "unsupported format string passed to generator.__format__"] None), h).
Proof. apply format_message_fails. Qed.

(** C8. What a failed [InstanceOf] check raises carries one argument, the
    text of the formatter's own error: neither the message about the field,
    nor the whitelist, nor the value. Here for [instance_of(int)] on the
    string ['5']. *)
Theorem InstanceOf_error_args (h : heap) :
  ∃ p, instance_of [VType Cint] h = (Ok p, h)
     ∧ InstanceOf_call p VNone (VAttribute "x") (VStr "5") h
       = (Raise (Exn TypeError
            [VStr "unsupported format string passed to generator.__format__"]
            None), h).
Proof. eexists. split; reflexivity. Qed.

(** C5. [subclass_of(int)] on the integer [5], which is no class, and on the
    class [str], which is no subclass of [int]: both calls raise a
    [TypeError] with the same single argument, the formatter's own error; the
    first one has the error of [issubclass] as its context. Neither names
    [type]. *)
Theorem SubclassOf_errors_alike (h : heap) :
  ∃ p, subclass_of [VType Cint] h = (Ok p, h)
     ∧ SubclassOf_call p VNone (VAttribute "x") (VInt 5) h
       = (Raise (Exn TypeError
            [VStr "unsupported format string passed to generator.__format__"]
            (Some (type_error "issubclass() arg 1 must be a class"))), h)
     ∧ SubclassOf_call p VNone (VAttribute "x") (VType Cstr) h
       = (Raise (Exn TypeError
            [VStr "unsupported format string passed to generator.__format__"]
            None), h).
Proof. eexists. split; [|split]; reflexivity. Qed.

(** C1. [all_instance_of(str)] returns normally on every list, also on
    [['a', 'b', 3]], whose last element is no instance of [str]: the loop
    tests the generator [is_instance] returns, not what it yields. *)
Theorem AllInstanceOf_accepts_any_list (h : heap) :
  ∃ p, all_instance_of [VType Cstr] h = (Ok p, h)
     ∧ vclass p = AllInstanceOf
     ∧ isinstance_class (VInt 3) Cstr = false
     ∧ call p VNone (VAttribute "items") (VList [VStr "a"; VStr "b"; VInt 3]) h
       = (Ok tt, h)
     ∧ ∀ c a xs, call p c a (VList xs) h = (Ok tt, h).
Proof.
  eexists. split; [reflexivity|]. repeat split.
  intros c a xs. apply AllInstanceOf_call_list.
Qed.

(** C6. [AllSubclassOf] over the whitelist [{int}]: on a list whose element
    is no class, and on a list whose element is a class but no subclass of
    [int], the call raises [AttributeError], because [self.format_message]
    names nothing the instance has; it returns normally on a list of
    subclasses and on the empty list. *)
Theorem AllSubclassOf_raises_AttributeError (h : heap) :
  ∃ p, new AllSubclassOf (VFrozenset [VType Cint]) h = (Ok p, h)
     ∧ AllSubclassOf_call p VNone (VAttribute "x") (VList [VInt 5]) h
       = (Raise (Exn AttributeError
            [VStr "'AllSubclassOf' object has no attribute 'format_message'"]
            (Some (type_error "issubclass() arg 1 must be a class"))), h)
     ∧ AllSubclassOf_call p VNone (VAttribute "x") (VList [VType Cstr]) h
       = (Raise (Exn AttributeError
            [VStr "'AllSubclassOf' object has no attribute 'format_message'"]
            None), h)
     ∧ AllSubclassOf_call p VNone (VAttribute "x") (VList [VType Cbool; VType Cint]) h
       = (Ok tt, h)
     ∧ AllSubclassOf_call p VNone (VAttribute "x") (VList []) h = (Ok tt, h).
Proof. eexists. split; [reflexivity|]. repeat split. Qed.

(** C3. [all_subclass_of] is [subclass_of]: the instance it returns is of
    class [SubclassOf]. Called on the list [[bool]] that instance raises,
    where the [AllSubclassOf] instance over the same whitelist returns
    normally. *)
Theorem all_subclass_of_returns_SubclassOf (h : heap) :
  all_subclass_of = subclass_of
  ∧ all_subclass_of [VType Cint] h
    = (Ok {| vclass := SubclassOf; whitelist := VFrozenset [VType Cint] |}, h)
  ∧ SubclassOf ≠ AllSubclassOf
  ∧ (∃ e, call {| vclass := SubclassOf; whitelist := VFrozenset [VType Cint] |}
            VNone (VAttribute "x") (VList [VType Cbool]) h = (Raise e, h))
  ∧ call {| vclass := AllSubclassOf; whitelist := VFrozenset [VType Cint] |}
      VNone (VAttribute "x") (VList [VType Cbool]) h = (Ok tt, h).
Proof.
  split; [reflexivity|]. split; [reflexivity|]. split; [discriminate|].
  split; [eexists|]; reflexivity.
Qed.


(** ** Purity *)

Lemma preserves_ret {A} (a : A) : preserves (ret a).
Proof. intros h. reflexivity. Qed.

Lemma preserves_raise {A} (e : exn) : preserves (@raise A e).
Proof. intros h. reflexivity. Qed.

Lemma preserves_lift {A} (r : result A) : preserves (lift r).
Proof. intros h. reflexivity. Qed.

Lemma preserves_bind {A B} (m : M A) (k : A → M B) :
  preserves m → (∀ a, preserves (k a)) → preserves (bind m k).
Proof.
  intros Hm Hk h. unfold bind. specialize (Hm h).
  destruct (m h) as [[x | e] h']; simpl in *; subst h'; [apply Hk | reflexivity].
Qed.

Lemma preserves_try_except {A} (body handler : M A) (cls : exn_class) :
  preserves body → preserves handler → preserves (try_except body cls handler).
Proof.
  intros Hb Hh h. unfold try_except. specialize (Hb h).
  destruct (body h) as [[x | e] h']; simpl in *; subst h'; [reflexivity|].
  destruct (bool_decide (exn_cls e = cls)); [|reflexivity].
  specialize (Hh h). destruct (handler h) as [[x | e'] h']; exact Hh.
Qed.

Lemma preserves_if {A} (b : bool) (m1 m2 : M A) :
  preserves m1 → preserves m2 → preserves (if b then m1 else m2).
Proof. destruct b; auto. Qed.

Lemma preserves_for_fresh (xs : list val) (body : val → M unit) :
  (∀ x, preserves (body x)) → preserves (for_fresh xs body).
Proof.
  intros Hb. induction xs as [|x xs IH]; [apply preserves_ret|].
  apply preserves_bind; auto.
Qed.

Lemma preserves_format_message a s v c t : preserves (format_message a s v c t).
Proof. intros h. rewrite format_message_fails. reflexivity. Qed.

Lemma preserves_self_format_message p a s v c t :
  preserves (self_format_message p a s v c t).
Proof. intros h. rewrite self_format_message_fails. reflexivity. Qed.

Create HintDb pres.

#[local] Hint Resolve preserves_ret preserves_raise preserves_lift preserves_bind
  preserves_try_except preserves_if preserves_for_fresh preserves_format_message
  preserves_self_format_message : pres.

(** [iter(v)] with a handler that raises, on a value that is no iterator: a
    new iterator over the elements, or an exception; the store is not
    touched. *)
Lemma iter_fresh (v : val) (handler : M iterator) (h : heap) :
  (∀ l, v ≠ VIter l) →
  (∀ h', ∃ e, handler h' = (Raise e, h')) →
  (∃ xs, try_except (py_iter v) TypeError handler h = (Ok (ItFresh xs), h))
  ∨ (∃ e, try_except (py_iter v) TypeError handler h = (Raise e, h)).
Proof.
  intros Hv Hh. unfold try_except.
  destruct v; cbn [py_iter]; unfold ret, raise;
    try (left; eexists; reflexivity);
    try (by destruct (Hv l));
    right; cbn [exn_cls type_error];
    rewrite bool_decide_eq_true_2 by reflexivity;
    destruct (Hh h) as [e ->]; eexists; reflexivity.
Qed.


Lemma InstanceOf_call_preserves p i a v : preserves (InstanceOf_call p i a v).
Proof. unfold InstanceOf_call. auto 6 with pres. Qed.

Lemma SubclassOf_call_preserves p c a v : preserves (SubclassOf_call p c a v).
Proof. unfold SubclassOf_call. auto 6 with pres. Qed.

Lemma AllInstanceOf_call_preserves p c a v (h : heap) :
  (∀ l, v ≠ VIter l) → (AllInstanceOf_call p c a v h).2 = h.
Proof.
  intros Hv. unfold AllInstanceOf_call, bind at 1.
  match goal with |- context [try_except _ _ ?hd] =>
    destruct (iter_fresh v hd h Hv) as [[xs ->] | [e ->]] end.
  - intros h'. unfold bind. rewrite format_message_fails. eauto.
  - cbn [for_in]. rewrite AllInstanceOf_loop. reflexivity.
  - reflexivity.
Qed.

Lemma AllSubclassOf_call_preserves p c a v (h : heap) :
  (∀ l, v ≠ VIter l) → (AllSubclassOf_call p c a v h).2 = h.
Proof.
  intros Hv. unfold AllSubclassOf_call, bind at 1.
  match goal with |- context [try_except (py_iter v) _ ?hd] =>
    destruct (iter_fresh v hd h Hv) as [[xs ->] | [e ->]] end.
  - intros h'. unfold bind. rewrite self_format_message_fails. eauto.
  - cbn [for_in]. apply preserves_for_fresh. intros x. auto 6 with pres.
  - reflexivity.
Qed.

Lemma call_preserves (p : validator) (i a v : val) (h : heap) :
  vclass p = InstanceOf ∨ vclass p = SubclassOf ∨ (∀ l, v ≠ VIter l) →
  (call p i a v h).2 = h.
Proof.
  intros H. unfold call. destruct (vclass p).
  - apply InstanceOf_call_preserves.
  - apply SubclassOf_call_preserves.
  - destruct H as [H | [H | H]]; try discriminate H.
    apply AllInstanceOf_call_preserves, H.
  - destruct H as [H | [H | H]]; try discriminate H.
    apply AllSubclassOf_call_preserves, H.
Qed.

(** C9, amended. A predicate called twice in a row with the same owner,
    field and value gives the same outcome both times, and no call changes
    the predicate, its whitelist or an object of the store, whenever the
    predicate is an [InstanceOf] or a [SubclassOf], or the value is no
    iterator object. (An [AllInstanceOf] or [AllSubclassOf] handed an
    iterator advances it.) *)
Theorem call_repeatable (p : validator) (i a v : val) (h : heap) :
  vclass p = InstanceOf ∨ vclass p = SubclassOf ∨ (∀ l, v ≠ VIter l) →
  repeatable p i a v h.
Proof.
  intros H. unfold repeatable.
  pose proof (call_preserves p i a v h H) as Hh.
  destruct (call p i a v h) as [r1 h1] eqn:E1. simpl in Hh. subst h1.
  rewrite E1. split; [|split; reflexivity].
  destruct r1; simpl; auto.
Qed.


(** ** Further properties of the module *)

(** *** [oxford_comma] *)

(** X1. [oxford_comma] yields one placeholder for each argument: nothing for
    no argument, the plain placeholder for one, and for two or more the plain
    placeholder for all but the last, which gets the placeholder after
    "or". *)
Theorem oxford_comma_placeholders (args : list val) :
  pending (oxford_comma args)
  = match length args with
    | 0 => []
    | 1 => ["{!r}"]
    | S (S n) => (replicate (S n) "{!r}" ++ ["or {!r}"])%list
    end.
Proof.
  destruct args as [|x [|y r]]; [reflexivity | reflexivity |].
  destruct (exists_last (l := y :: r)) as (init & z & Hl); [discriminate|].
  rewrite Hl. unfold oxford_comma. cbn [length pending].
  rewrite length_app. cbn [length].
  replace (length init + 1)%nat with (S (length init)) by lia.
  assert (H1 : (1 <? S (S (length init)))%nat = true) by (apply Nat.ltb_lt; lia).
  rewrite H1. cbn [oxford_yields]. rewrite H1. cbn [replicate app]. f_equal.
  exact (oxford_yields_last 2 z init).
Qed.

(** *** Construction *)

(** X2. The constructor returns an instance exactly on a frozenset that is
    not empty and holds classes only; the instance is of the class asked for
    and holds that very frozenset, and the store is as before. *)
Theorem new_returns_iff (k : validator_class) (w : val) (h h' : heap)
    (p : validator) :
  new k w h = (Ok p, h')
  ↔ (∃ xs, w = VFrozenset xs ∧ xs ≠ [] ∧ ∀ x, x ∈ xs → ∃ c, x = VType c)
    ∧ p = {| vclass := k; whitelist := w |} ∧ h' = h.
Proof.
  rewrite new_spec. split.
  - destruct (valid_whitelist w) eqn:Hv; [|discriminate].
    intros [= <- <-]. split; [|auto].
    destruct w; try discriminate Hv. cbn [valid_whitelist] in Hv.
    apply andb_true_iff in Hv as [Hlen Hall].
    exists xs. split; [reflexivity|]. split.
    + intros ->. discriminate Hlen.
    + intros x Hx. destruct x; try (rewrite (forallb_is_type_false xs _ Hx) in Hall;
        [discriminate Hall | reflexivity]). eauto.
  - intros [(xs & -> & Hne & Hall) [-> ->]].
    assert (Hv : valid_whitelist (VFrozenset xs) = true); [|rewrite Hv; reflexivity].
    cbn [valid_whitelist]. apply andb_true_iff. split.
    + destruct xs; [done | reflexivity].
    + clear Hne. induction xs as [|x xs IH]; [reflexivity|].
      cbn [forallb]. destruct (Hall x) as [c ->]; [constructor|].
      apply IH. intros y Hy. apply Hall. constructor. exact Hy.
Qed.

(** X3. Whatever a factory raises is a [TypeError], also for a missing
    whitelist (never the [ValueError] the docstrings announce), and the store
    is as before. *)
Theorem factory_errors_are_TypeError (f : list val → M validator)
    (args : list val) (h h' : heap) (e : exn) :
  f ∈ factories → f args h = (Raise e, h') → exn_cls e = TypeError ∧ h' = h.
Proof.
  intros Hf. apply factories_shape in Hf as (k & ->).
  unfold bind, py_frozenset.
  destruct (first_unhashable args); [intros [= <- <-]; auto|].
  unfold ret. rewrite new_spec.
  destruct (valid_whitelist _); [discriminate|]. intros [= <- <-]. auto.
Qed.

Lemma first_unhashable_elem (args : list val) (x : val) :
  x ∈ args → unhashable x ≠ None → ∃ c, first_unhashable args = Some c.
Proof.
  induction args as [|y args IH]; intros Hx Hu; [inversion Hx|].
  cbn [first_unhashable]. destruct (unhashable y) as [c|] eqn:Hy; [eauto|].
  apply elem_of_cons in Hx as [-> | Hx]; [contradiction | auto].
Qed.

(** X4. A factory handed an argument that cannot be hashed (a list, a set, a
    tuple holding one), as when the classes are passed in one list, raises
    the [TypeError] of [frozenset] naming an unhashable type; no validator of
    the whitelist runs. *)
Theorem factory_unhashable_argument (f : list val → M validator)
    (args : list val) (x : val) (h : heap) :
  f ∈ factories → x ∈ args → unhashable x ≠ None →
  ∃ c, f args h
       = (Raise (type_error ("unhashable type: '" +:+ class_name c +:+ "'")), h).
Proof.
  intros Hf Hx Hu. apply factories_shape in Hf as (k & ->).
  destruct (first_unhashable_elem args x Hx Hu) as [c Hc].
  exists c. unfold bind, py_frozenset. rewrite Hc. reflexivity.
Qed.


(** *** [SubclassOf] and [InstanceOf] *)

Lemma existsb_subset {A} (f : A → bool) (T T' : list A) :
  (∀ t, t ∈ T → t ∈ T') → existsb f T = true → existsb f T' = true.
Proof.
  intros Hsub H. apply existsb_elem_of in H as (t & Ht & Hf).
  apply existsb_elem_of. eauto.
Qed.

Lemma existsb_same_members {A} (f : A → bool) (T T' : list A) :
  (∀ t, t ∈ T ↔ t ∈ T') → existsb f T = existsb f T'.
Proof.
  intros Hin. destruct (existsb f T) eqn:H1, (existsb f T') eqn:H2; try reflexivity.
  - rewrite <- H2. symmetry. apply (existsb_subset f T T'); [apply Hin | exact H1].
  - rewrite <- H1. apply (existsb_subset f T' T); [apply Hin | exact H2].
Qed.

(** The outcome of [SubclassOf.__call__] on any value, for a whitelist of
    classes that is not empty. *)
Lemma SubclassOf_call_spec (p : validator) (t : pyclass) (T : list pyclass)
    (c a v : val) (h : heap) :
  whitelist p = VFrozenset (map VType (t :: T)) →
  SubclassOf_call p c a v h
  = (if subclass_ok (t :: T) v then Ok tt
     else if is_type v then Raise format_error
     else Raise (Exn TypeError
            [VStr "unsupported format string passed to generator.__format__"]
            (Some (type_error "issubclass() arg 1 must be a class"))), h).
Proof.
  intros Hw. destruct (is_type v) eqn:Hv.
  - destruct v; try discriminate Hv. rewrite (SubclassOf_call_class p (t :: T)) by exact Hw.
    cbn [subclass_ok]. destruct (existsb _ _); reflexivity.
  - rewrite (SubclassOf_call_other p t T) by assumption.
    destruct v; try discriminate Hv; reflexivity.
Qed.

(** X5. The whitelist is a set: two argument lists with the same classes, in
    any order and with any repetitions, give predicates with the same
    outcome on every input, for [instance_of] and for [subclass_of]. *)
Theorem whitelist_is_a_set (T1 T2 : list pyclass) (h : heap) :
  T1 ≠ [] → (∀ t, t ∈ T1 ↔ t ∈ T2) →
  (∃ p1 p2, instance_of (map VType T1) h = (Ok p1, h)
          ∧ instance_of (map VType T2) h = (Ok p2, h)
          ∧ ∀ i a v h', InstanceOf_call p1 i a v h' = InstanceOf_call p2 i a v h')
  ∧ (∃ q1 q2, subclass_of (map VType T1) h = (Ok q1, h)
            ∧ subclass_of (map VType T2) h = (Ok q2, h)
            ∧ ∀ c a v h', SubclassOf_call q1 c a v h' = SubclassOf_call q2 c a v h').
Proof.
  intros H1 Hsame.
  assert (H2 : T2 ≠ []).
  { apply (nonempty_same_members T1 T2); [intros t; symmetry; apply Hsame | exact H1]. }
  split.
  - destruct (factory_classes InstanceOf T1 h H1) as (T1' & Hp1 & Hin1).
    destruct (factory_classes InstanceOf T2 h H2) as (T2' & Hp2 & Hin2).
    eexists _, _. split; [exact Hp1|]. split; [exact Hp2|].
    intros i a v h'.
    rewrite (InstanceOf_call_spec _ T1'), (InstanceOf_call_spec _ T2') by reflexivity.
    rewrite (existsb_same_members _ T1' T2'); [reflexivity|].
    intros t. rewrite Hin1, Hin2. apply Hsame.
  - destruct (factory_classes SubclassOf T1 h H1) as (T1' & Hp1 & Hin1).
    destruct (factory_classes SubclassOf T2 h H2) as (T2' & Hp2 & Hin2).
    eexists _, _. split; [exact Hp1|]. split; [exact Hp2|].
    intros c a v h'.
    assert (Hsame' : ∀ t, t ∈ T1' ↔ t ∈ T2').
    { intros t. rewrite Hin1, Hin2. apply Hsame. }
    destruct T1' as [|t1 T1']; [destruct H1; apply elem_of_nil_inv; intros t Ht;
      apply Hin1 in Ht; inversion Ht|].
    destruct T2' as [|t2 T2']; [destruct H2; apply elem_of_nil_inv; intros t Ht;
      apply Hin2 in Ht; inversion Ht|].
    rewrite (SubclassOf_call_spec _ t1 T1'), (SubclassOf_call_spec _ t2 T2') by reflexivity.
    assert (Hok : subclass_ok (t1 :: T1') v = subclass_ok (t2 :: T2') v).
    { destruct v; try reflexivity. apply existsb_same_members, Hsame'. }
    rewrite Hok. reflexivity.
Qed.

(** X6. For a non-empty whitelist [T] of classes the predicate
    [subclass_of(T...)] exists, and called on a class it raises exactly when
    the class is a subclass of no member of [T], and returns normally exactly
    when it is a subclass of some member. *)
Theorem SubclassOf_class_raises_iff (T : list pyclass) (c a : val) (d : pyclass)
    (h : heap) :
  T ≠ [] →
  ∃ p, subclass_of (map VType T) h = (Ok p, h)
     ∧ vclass p = SubclassOf
     ∧ ((∃ e, SubclassOf_call p c a (VType d) h = (Raise e, h))
        ↔ ∀ t, t ∈ T → subclass_of_class d t = false)
     ∧ (SubclassOf_call p c a (VType d) h = (Ok tt, h)
        ↔ ∃ t, t ∈ T ∧ subclass_of_class d t = true).
Proof.
  intros HT. destruct (factory_classes SubclassOf T h HT) as (T' & Hp & Hin).
  eexists. split; [exact Hp|]. split; [reflexivity|].
  rewrite (SubclassOf_call_class _ T') by reflexivity.
  destruct (existsb (subclass_of_class d) T') eqn:He.
  - apply existsb_elem_of in He as (t & Ht & Hi). apply Hin in Ht. split.
    + split; [intros (e & He); discriminate He|].
      intros Hall. rewrite (Hall t Ht) in Hi. discriminate.
    + split; [eauto | reflexivity].
  - assert (Hall : ∀ t, t ∈ T → subclass_of_class d t = false).
    { intros t Ht. apply Hin in Ht. revert t Ht. apply existsb_false_elem_of, He. }
    split.
    + split; [auto | eauto].
    + split; [discriminate|]. intros (t & Ht & Hi).
      rewrite (Hall t Ht) in Hi. discriminate.
Qed.

(** X7. [subclass_of(T...)] called on a value that is no class raises a
    [TypeError] for every non-empty whitelist: the error of [issubclass] is
    caught, and the error that leaves the call has it as its context. *)
Theorem SubclassOf_rejects_non_class (T : list pyclass) (c a v : val) (h : heap) :
  T ≠ [] → is_type v = false →
  ∃ p, subclass_of (map VType T) h = (Ok p, h)
     ∧ SubclassOf_call p c a v h
       = (Raise (Exn TypeError
            [VStr "unsupported format string passed to generator.__format__"]
            (Some (type_error "issubclass() arg 1 must be a class"))), h).
Proof.
  intros HT Hv. destruct (factory_classes SubclassOf T h HT) as (T' & Hp & Hin).
  eexists. split; [exact Hp|].
  destruct T' as [|t T']; [destruct HT; apply elem_of_nil_inv; intros t Ht;
    apply Hin in Ht; inversion Ht|].
  apply (SubclassOf_call_other _ t T'); [reflexivity | exact Hv].
Qed.


Lemma object_in_umro (u : uclass) : Cobject ∈ umro u.
Proof.
  induction u as [n | n b IH]; cbn [umro].
  - apply elem_of_cons. right. constructor.
  - apply elem_of_cons. right. exact IH.
Qed.

Lemma umro_elem (u : uclass) (d : pyclass) :
  d ∈ umro u → d = Cobject ∨ ∃ w, d = CUser w ∧ ∀ t, t ∈ umro w → t ∈ umro u.
Proof.
  induction u as [n | n b IH]; cbn [umro]; intros Hd.
  - apply elem_of_cons in Hd as [-> | Hd]; [right; eexists; split; [reflexivity | auto]|].
    apply list_elem_of_singleton in Hd. auto.
  - apply elem_of_cons in Hd as [-> | Hd]; [right; eexists; split; [reflexivity | auto]|].
    destruct (IH Hd) as [-> | (w & -> & Hw)]; [auto|].
    right. exists w. split; [reflexivity|]. intros t Ht.
    apply elem_of_cons. right. auto.
Qed.

Lemma mro_object (c : pyclass) : Cobject ∈ mro c.
Proof.
  destruct c; cbn [mro]; try apply object_in_umro;
    repeat (apply elem_of_cons; first [left; reflexivity | right]).
Qed.

(** [issubclass] is reflexive and transitive. *)
Lemma subclass_of_class_refl (c : pyclass) : subclass_of_class c c = true.
Proof.
  apply bool_decide_eq_true. destruct c; cbn [mro]; try constructor.
  destruct u; constructor.
Qed.

Lemma subclass_of_class_trans (c d t : pyclass) :
  subclass_of_class c d = true → subclass_of_class d t = true →
  subclass_of_class c t = true.
Proof.
  unfold subclass_of_class. rewrite !bool_decide_eq_true. intros Hd Ht.
  destruct c; cbn [mro] in Hd |- *;
    [ repeat (apply elem_of_cons in Hd as [-> | Hd]); try (by inversion Hd);
      cbn [mro] in Ht;
      repeat (apply elem_of_cons in Ht as [-> | Ht]); try (by inversion Ht);
      repeat (apply elem_of_cons; first [left; reflexivity | right]) .. |].
  destruct (umro_elem u d Hd) as [-> | (w & -> & Hw)].
  - cbn [mro] in Ht. apply list_elem_of_singleton in Ht as ->. apply object_in_umro.
  - apply Hw. exact Ht.
Qed.

(** X8. A wider whitelist accepts more: what a predicate over [T] lets pass,
    a predicate over a whitelist containing [T] lets pass as well, for
    [InstanceOf] and for [SubclassOf]. *)
Theorem wider_whitelist_accepts_more (T T' : list pyclass) (p p' : validator)
    (i a v : val) (h : heap) :
  whitelist p = VFrozenset (map VType T) →
  whitelist p' = VFrozenset (map VType T') →
  (∀ t, t ∈ T → t ∈ T') →
  (InstanceOf_call p i a v h = (Ok tt, h) → InstanceOf_call p' i a v h = (Ok tt, h))
  ∧ (SubclassOf_call p i a v h = (Ok tt, h) → SubclassOf_call p' i a v h = (Ok tt, h)).
Proof.
  intros Hw Hw' Hsub. split.
  - rewrite (InstanceOf_call_spec p T), (InstanceOf_call_spec p' T') by assumption.
    destruct (existsb (isinstance_class v) T) eqn:He; [|discriminate].
    rewrite (existsb_subset _ T T' Hsub He). reflexivity.
  - destruct (is_type v) eqn:Hv.
    + destruct v; try discriminate Hv.
      rewrite (SubclassOf_call_class p T), (SubclassOf_call_class p' T') by assumption.
      destruct (existsb (subclass_of_class c) T) eqn:He; [|discriminate].
      rewrite (existsb_subset _ T T' Hsub He). reflexivity.
    + destruct T as [|t T].
      * unfold SubclassOf_call, is_subclass, bind at 1, try_except. rewrite Hw.
        cbn [map members pending lift py_any negb].
        unfold bind. rewrite format_message_fails. discriminate.
      * rewrite (SubclassOf_call_other p t T) by assumption. discriminate.
Qed.

(** X9. [SubclassOf] lets every member of its whitelist pass, and with a
    class every subclass of it; [InstanceOf] lets pass, with a value, every
    value whose class is a subclass of the class of that value. *)
Theorem accepted_classes_closed (T : list pyclass) (p : validator) (c a : val)
    (h : heap) :
  whitelist p = VFrozenset (map VType T) →
  (∀ t, t ∈ T → SubclassOf_call p c a (VType t) h = (Ok tt, h))
  ∧ (∀ d d', SubclassOf_call p c a (VType d) h = (Ok tt, h) →
       subclass_of_class d' d = true →
       SubclassOf_call p c a (VType d') h = (Ok tt, h))
  ∧ (∀ v v', InstanceOf_call p c a v h = (Ok tt, h) →
       subclass_of_class (type_of v') (type_of v) = true →
       InstanceOf_call p c a v' h = (Ok tt, h)).
Proof.
  intros Hw. split; [|split].
  - intros t Ht. rewrite (SubclassOf_call_class p T) by exact Hw.
    assert (He : existsb (subclass_of_class t) T = true).
    { apply existsb_elem_of. exists t. split; [exact Ht | apply subclass_of_class_refl]. }
    rewrite He. reflexivity.
  - intros d d'. rewrite !(SubclassOf_call_class p T) by exact Hw.
    destruct (existsb (subclass_of_class d) T) eqn:He; [|discriminate].
    intros _ Hsub. apply existsb_elem_of in He as (t & Ht & Hdt).
    assert (He' : existsb (subclass_of_class d') T = true).
    { apply existsb_elem_of. exists t. split; [exact Ht|].
      exact (subclass_of_class_trans d' d t Hsub Hdt). }
    rewrite He'. reflexivity.
  - intros v v'. rewrite !(InstanceOf_call_spec p T) by exact Hw.
    destruct (existsb (isinstance_class v) T) eqn:He; [|discriminate].
    intros _ Hsub. apply existsb_elem_of in He as (t & Ht & Hvt).
    assert (He' : existsb (isinstance_class v') T = true).
    { apply existsb_elem_of. exists t. split; [exact Ht|].
      exact (subclass_of_class_trans _ _ t Hsub Hvt). }
    rewrite He'. reflexivity.
Qed.


(** *** The loops of [AllInstanceOf] and [AllSubclassOf] *)

Lemma forallb_elem_of {A} (f : A → bool) (l : list A) :
  forallb f l = true ↔ ∀ x, x ∈ l → f x = true.
Proof.
  induction l as [|y l IH]; cbn [forallb].
  - split; [intros _ x Hx; inversion Hx | reflexivity].
  - rewrite andb_true_iff, IH. split.
    + intros [Hy Hl] x Hx. apply elem_of_cons in Hx as [-> | Hx]; auto.
    + intros H. split; [apply H; constructor|]. intros x Hx. apply H. constructor. exact Hx.
Qed.

Lemma for_fresh_all_ok (xs : list val) (body : val → M unit) (h : heap) :
  (∀ x, x ∈ xs → ∀ h', body x h' = (Ok tt, h')) →
  for_fresh xs body h = (Ok tt, h).
Proof.
  induction xs as [|x xs IH]; intros Hb; [reflexivity|].
  cbn [for_fresh]. unfold bind at 1. rewrite Hb by constructor.
  apply IH. intros y Hy. apply Hb. constructor. exact Hy.
Qed.

Lemma for_fresh_stops (pre : list val) (x : val) (rest : list val)
    (body : val → M unit) (e : exn) (h : heap) :
  (∀ y, y ∈ pre → ∀ h', body y h' = (Ok tt, h')) →
  (∀ h', body x h' = (Raise e, h')) →
  for_fresh (pre ++ x :: rest) body h = (Raise e, h).
Proof.
  induction pre as [|y pre IH]; intros Hpre Hx; cbn [app for_fresh]; unfold bind at 1.
  - rewrite Hx. reflexivity.
  - rewrite Hpre by constructor. apply IH; [|exact Hx].
    intros z Hz. apply Hpre. constructor. exact Hz.
Qed.

(** A loop over a stored iterator whose body lets every element pass leaves
    the iterator exhausted. *)
Lemma for_ref_all_ok (l : loc) (xs : list val) (body : val → M unit) (h : heap) :
  (∀ x, x ∈ xs → ∀ h', body x h' = (Ok tt, h')) →
  for_ref l xs body h = (Ok tt, match xs with [] => h | _ => <[l := []]> h end).
Proof.
  revert h. induction xs as [|x xs IH]; intros h Hb; [reflexivity|].
  cbn [for_ref]. unfold bind at 1. unfold bind at 1. rewrite Hb by constructor.
  rewrite IH by (intros y Hy; apply Hb; constructor; exact Hy).
  destruct xs; [reflexivity|]. rewrite insert_insert_eq. reflexivity.
Qed.

(** When the body raises on an element, the iterator holds what came after
    that element. *)
Lemma for_ref_stops (l : loc) (pre : list val) (x : val) (rest : list val)
    (body : val → M unit) (e : exn) (h : heap) :
  (∀ y, y ∈ pre → ∀ h', body y h' = (Ok tt, h')) →
  (∀ h', body x h' = (Raise e, h')) →
  for_ref l (pre ++ x :: rest) body h = (Raise e, <[l := rest]> h).
Proof.
  revert h. induction pre as [|y pre IH]; intros h Hpre Hx;
    cbn [app for_ref]; unfold bind at 1; unfold bind at 1.
  - rewrite Hx. reflexivity.
  - rewrite Hpre by constructor.
    rewrite IH; [|intros z Hz; apply Hpre; constructor; exact Hz | exact Hx].
    rewrite insert_insert_eq. reflexivity.
Qed.

Lemma AllInstanceOf_call_unfold (p : validator) (c a v : val) :
  AllInstanceOf_call p c a v
  = (let* g :=
       try_except (py_iter v) TypeError
         (let* m := format_message a "is" v "must be" [VIterable] in
          raise (Exn TypeError [VStr m; a; v] None)) in
     for_in g (AllInstanceOf_body p a v)).
Proof. reflexivity. Qed.

Lemma AllSubclassOf_call_unfold (p : validator) (c a v : val) :
  AllSubclassOf_call p c a v
  = (let* g :=
       try_except (py_iter v) TypeError
         (let* m := self_format_message p a "is" v "must be" [VIterable] in
          raise (Exn TypeError [VStr m; a; v] None)) in
     for_in g (AllSubclassOf_body p a v)).
Proof. reflexivity. Qed.

Lemma AllInstanceOf_body_ok (p : validator) (a v x : val) (h : heap) :
  AllInstanceOf_body p a v x h = (Ok tt, h).
Proof. reflexivity. Qed.

Lemma AllSubclassOf_body_pass (p : validator) (T : list pyclass) (a v x : val) :
  whitelist p = VFrozenset (map VType T) →
  subclass_ok T x = true → ∀ h, AllSubclassOf_body p a v x h = (Ok tt, h).
Proof.
  intros Hw Hok h. destruct x; try discriminate Hok. cbn [subclass_ok] in Hok.
  unfold AllSubclassOf_body, bind at 1, try_except, is_subclass. rewrite Hw.
  cbn [members pending lift]. rewrite py_any_issubclass_class, Hok. reflexivity.
Qed.

(** On an element that does not pass, the body raises [AttributeError]: the
    lookup of [self.format_message] fails, in the handler or after it. *)
Lemma AllSubclassOf_body_fail (p : validator) (T : list pyclass) (a v x : val) :
  whitelist p = VFrozenset (map VType T) →
  subclass_ok T x = false →
  ∃ e, exn_cls e = AttributeError ∧ ∀ h, AllSubclassOf_body p a v x h = (Raise e, h).
Proof.
  intros Hw Hok.
  assert (Hplain : ∀ r : bool, r = false →
    py_any (map (λ c, py_issubclass x c) (map VType T)) = Ok r →
    ∃ e, exn_cls e = AttributeError ∧ ∀ h, AllSubclassOf_body p a v x h = (Raise e, h)).
  { intros r -> Hany. eexists. split; [|intros h].
    2:{ unfold AllSubclassOf_body, bind at 1, try_except, is_subclass. rewrite Hw.
        cbn [members pending lift]. rewrite Hany. cbn [negb].
        unfold bind. rewrite self_format_message_fails. reflexivity. }
    reflexivity. }
  destruct (is_type x) eqn:Hx.
  - destruct x; try discriminate Hx. cbn [subclass_ok] in Hok.
    apply (Hplain false eq_refl). rewrite py_any_issubclass_class, Hok. reflexivity.
  - destruct T as [|t T].
    + apply (Hplain false eq_refl). reflexivity.
    + eexists. split; [|intros h].
      2:{ unfold AllSubclassOf_body, bind at 1, try_except, is_subclass. rewrite Hw.
          cbn [members pending lift]. rewrite (py_any_issubclass_other x t T Hx).
          cbn [exn_cls type_error]. rewrite bool_decide_eq_true_2 by reflexivity.
          unfold bind. rewrite self_format_message_fails. reflexivity. }
      reflexivity.
Qed.


(** X11. [AllInstanceOf.__call__] handed an iterator returns normally and
    leaves it exhausted. *)
Theorem AllInstanceOf_exhausts (p : validator) (c a : val) (l : loc)
    (xs : list val) (h : heap) :
  h !! l = Some xs →
  AllInstanceOf_call p c a (VIter l) h = (Ok tt, <[l := []]> h).
Proof.
  intros Hl. rewrite AllInstanceOf_call_unfold.
  unfold bind at 1, try_except. cbn [py_iter ret for_in]. rewrite Hl. cbn [default].
  rewrite for_ref_all_ok by (intros; apply AllInstanceOf_body_ok).
  destruct xs; [|reflexivity]. rewrite insert_id by exact Hl. reflexivity.
Qed.

(** X12. [AllSubclassOf.__call__] on a list returns normally exactly when
    every element is a class and a subclass of some member of the whitelist,
    so also on the empty list; when some element is not, it raises
    [AttributeError]. *)
Theorem AllSubclassOf_list_returns_iff (T : list pyclass) (c a : val)
    (xs : list val) (h : heap) :
  T ≠ [] →
  ∃ p, new AllSubclassOf (VFrozenset (map VType T)) h = (Ok p, h)
     ∧ (AllSubclassOf_call p c a (VList xs) h = (Ok tt, h)
        ↔ ∀ x, x ∈ xs → subclass_ok T x = true)
     ∧ ((∃ x, x ∈ xs ∧ subclass_ok T x = false) →
        ∃ e, AllSubclassOf_call p c a (VList xs) h = (Raise e, h)
             ∧ exn_cls e = AttributeError).
Proof.
  intros HT. eexists. split.
  { rewrite new_spec, valid_whitelist_classes by exact HT. reflexivity. }
  set (p := {| vclass := AllSubclassOf; whitelist := VFrozenset (map VType T) |}).
  assert (Hcall : AllSubclassOf_call p c a (VList xs) h
                  = for_fresh xs (AllSubclassOf_body p a (VList xs)) h) by reflexivity.
  rewrite Hcall.
  assert (Hfail : (∃ x, x ∈ xs ∧ subclass_ok T x = false) →
    ∃ e, for_fresh xs (AllSubclassOf_body p a (VList xs)) h = (Raise e, h)
         ∧ exn_cls e = AttributeError).
  { intros (x & Hx & Hok). clear Hcall. generalize (VList xs). intros v.
    induction xs as [|y xs IH]; [inversion Hx|].
    cbn [for_fresh]. unfold bind at 1.
    destruct (subclass_ok T y) eqn:Hy.
    - rewrite (AllSubclassOf_body_pass p T) by (reflexivity || exact Hy).
      apply IH. apply elem_of_cons in Hx as [-> | Hx]; [congruence | exact Hx].
    - destruct (AllSubclassOf_body_fail p T a v y eq_refl Hy) as (e & He & Hb).
      exists e. rewrite Hb. auto. }
  split; [|exact Hfail]. split.
  - intros Hok x Hx. destruct (subclass_ok T x) eqn:Hs; [reflexivity|].
    destruct Hfail as (e & He & _); [eauto|]. rewrite He in Hok. discriminate.
  - intros Hall. apply for_fresh_all_ok. intros x Hx.
    apply (AllSubclassOf_body_pass p T); [reflexivity | auto].
Qed.

(** X13. [AllSubclassOf.__call__] handed an iterator stops at the first
    element that does not pass: it raises [AttributeError] and the iterator
    holds the elements after that one; when every element passes it returns
    normally and the iterator is exhausted. *)
Theorem AllSubclassOf_iterator_single_pass (T : list pyclass) (p : validator)
    (c a : val) (l : loc) (h : heap) :
  whitelist p = VFrozenset (map VType T) →
  (∀ pre x rest,
     h !! l = Some (pre ++ x :: rest)%list →
     (∀ y, y ∈ pre → subclass_ok T y = true) → subclass_ok T x = false →
     ∃ e, AllSubclassOf_call p c a (VIter l) h = (Raise e, <[l := rest]> h)
          ∧ exn_cls e = AttributeError)
  ∧ (∀ xs, h !! l = Some xs → (∀ y, y ∈ xs → subclass_ok T y = true) →
     AllSubclassOf_call p c a (VIter l) h = (Ok tt, <[l := []]> h)).
Proof.
  intros Hw. rewrite AllSubclassOf_call_unfold. split.
  - intros pre x rest Hl Hpre Hx.
    destruct (AllSubclassOf_body_fail p T a (VIter l) x Hw Hx) as (e & He & Hb).
    exists e. split; [|exact He].
    unfold bind at 1, try_except. cbn [py_iter ret for_in]. rewrite Hl. cbn [default].
    apply for_ref_stops; [|exact Hb].
    intros y Hy. apply (AllSubclassOf_body_pass p T); auto.
  - intros xs Hl Hall.
    unfold bind at 1, try_except. cbn [py_iter ret for_in]. rewrite Hl. cbn [default].
    rewrite for_ref_all_ok by (intros y Hy; apply (AllSubclassOf_body_pass p T); auto).
    destruct xs; [|reflexivity]. rewrite insert_id by exact Hl. reflexivity.
Qed.


(** *** What a call raises *)









End Runtime.

(** ** Concrete runs *)

(** C9 as stated fails: an [AllSubclassOf] over [{int}] is handed twice the
    same iterator, which has the class [str] left to yield. The first call
    takes [str] out of the iterator and raises; the second one finds the
    iterator exhausted and returns normally. *)
Lemma call_advances_iterator :
  ¬ repeatable class_repr class_repr class_repr
      {| vclass := AllSubclassOf; whitelist := VFrozenset [VType Cint] |}
      VNone (VAttribute "x") (VIter 0) {[ 0%nat := [VType Cstr] ]}.
Proof.
  unfold repeatable.
  replace (call class_repr class_repr class_repr
             {| vclass := AllSubclassOf; whitelist := VFrozenset [VType Cint] |}
             VNone (VAttribute "x") (VIter 0) {[ 0%nat := [VType Cstr] ]})
    with (@Raise unit (Exn AttributeError
            [VStr "'AllSubclassOf' object has no attribute 'format_message'"]
            None), ({[ 0%nat := [] ]} : heap))
    by (vm_compute; reflexivity).
  replace (call class_repr class_repr class_repr
             {| vclass := AllSubclassOf; whitelist := VFrozenset [VType Cint] |}
             VNone (VAttribute "x") (VIter 0) {[ 0%nat := [] ]})
    with (Ok tt, ({[ 0%nat := [] ]} : heap))
    by (vm_compute; reflexivity).
  intros [Hsame _]. exact Hsame.
Qed.

(** The same with [all_instance_of(str)]: both calls return normally, and the
    iterator that was handed in has nothing left after the first one. *)
Example AllInstanceOf_exhausts_iterator :
  call class_repr class_repr class_repr
    {| vclass := AllInstanceOf; whitelist := VFrozenset [VType Cstr] |}
    VNone (VAttribute "x") (VIter 0) {[ 0%nat := [VStr "a"; VInt 3] ]}
  = (Ok tt, {[ 0%nat := [] ]}).
Proof. vm_compute. reflexivity. Qed.

Lemma InstanceOf_raises_iff_witness :
  [Cint] ≠ []
  ∧ ∃ p, instance_of class_repr class_repr class_repr (map VType [Cint]) ∅ = (Ok p, ∅)
       ∧ vclass p = InstanceOf
       ∧ ((∃ e, InstanceOf_call class_repr class_repr class_repr
                  p VNone (VAttribute "x") (VStr "5") ∅ = (Raise e, ∅))
          ↔ ∀ t, t ∈ [Cint] → isinstance_class (VStr "5") t = false)
       ∧ (InstanceOf_call class_repr class_repr class_repr
            p VNone (VAttribute "x") (VStr "5") ∅ = (Ok tt, ∅)
          ↔ ∃ t, t ∈ [Cint] ∧ isinstance_class (VStr "5") t = true).
Proof.
  split; [discriminate|].
  apply (InstanceOf_raises_iff class_repr class_repr class_repr
           [Cint] VNone (VAttribute "x") (VStr "5") ∅).
  discriminate.
Defined.

Lemma new_requires_frozenset_witness :
  type_of (VSet [VType Cint]) ≠ Cfrozenset
  ∧ ∃ e, is_frozenset class_repr class_repr class_repr
           {| vclass := InstanceOf; whitelist := VSet [VType Cint] |}
           whitelist_attribute (VSet [VType Cint]) ∅ = (Raise e, ∅)
       ∧ new class_repr class_repr class_repr InstanceOf (VSet [VType Cint]) ∅
         = (Raise e, ∅).
Proof.
  split; [discriminate|].
  apply (new_requires_frozenset class_repr class_repr class_repr
           InstanceOf (VSet [VType Cint]) ∅).
  discriminate.
Defined.

Lemma whitelist_checked_at_construction_witness :
  ∃ e, instance_of class_repr class_repr class_repr [VInt 1; VInt 2] ∅ = (Raise e, ∅).
Proof.
  apply (proj1 (proj2 (whitelist_checked_at_construction
                         class_repr class_repr class_repr))).
  - unfold factories. constructor.
  - exists (VInt 1). split; [constructor | reflexivity].
Defined.

Lemma call_repeatable_witness :
  (∀ l, VList [VStr "a"; VInt 3] ≠ VIter l)
  ∧ repeatable class_repr class_repr class_repr
      {| vclass := AllSubclassOf; whitelist := VFrozenset [VType Cint] |}
      VNone (VAttribute "x") (VList [VStr "a"; VInt 3]) ∅.
Proof.
  split; [discriminate|].
  apply (call_repeatable class_repr class_repr class_repr).
  right. right. discriminate.
Defined.

(** ** Concrete runs of the further properties *)

Lemma factory_errors_are_TypeError_witness :
  instance_of class_repr class_repr class_repr
    ∈ factories class_repr class_repr class_repr
  ∧ instance_of class_repr class_repr class_repr [] ∅ = (Raise format_error, ∅)
  ∧ exn_cls format_error = TypeError ∧ (∅ : heap) = ∅.
Proof.
  split; [unfold factories; constructor|]. split; [reflexivity|].
  apply (factory_errors_are_TypeError class_repr class_repr class_repr
           (instance_of class_repr class_repr class_repr) [] ∅ ∅ format_error).
  - unfold factories. constructor.
  - reflexivity.
Defined.

Lemma factory_unhashable_argument_witness :
  unhashable (VList [VType Cint; VType Cstr]) ≠ None
  ∧ ∃ c, instance_of class_repr class_repr class_repr
           [VList [VType Cint; VType Cstr]] ∅
         = (Raise (type_error ("unhashable type: '" +:+ class_name c +:+ "'")), ∅).
Proof.
  split; [discriminate|].
  apply (factory_unhashable_argument class_repr class_repr class_repr
           (instance_of class_repr class_repr class_repr)
           [VList [VType Cint; VType Cstr]] (VList [VType Cint; VType Cstr]) ∅).
  - unfold factories. constructor.
  - constructor.
  - discriminate.
Defined.

Lemma whitelist_is_a_set_witness :
  ∃ p1 p2,
    instance_of class_repr class_repr class_repr
      (map VType [Cint; Cstr; Cint]) ∅ = (Ok p1, ∅)
    ∧ instance_of class_repr class_repr class_repr
        (map VType [Cstr; Cint]) ∅ = (Ok p2, ∅)
    ∧ ∀ i a v h',
        InstanceOf_call class_repr class_repr class_repr p1 i a v h'
        = InstanceOf_call class_repr class_repr class_repr p2 i a v h'.
Proof.
  apply (whitelist_is_a_set class_repr class_repr class_repr
           [Cint; Cstr; Cint] [Cstr; Cint] ∅).
  - discriminate.
  - intros t. rewrite !elem_of_cons, elem_of_nil. tauto.
Defined.

Lemma SubclassOf_class_raises_iff_witness :
  [Cint] ≠ []
  ∧ ∃ p, subclass_of class_repr class_repr class_repr (map VType [Cint]) ∅ = (Ok p, ∅)
       ∧ vclass p = SubclassOf
       ∧ ((∃ e, SubclassOf_call class_repr class_repr class_repr
                  p VNone (VAttribute "x") (VType Cbool) ∅ = (Raise e, ∅))
          ↔ ∀ t, t ∈ [Cint] → subclass_of_class Cbool t = false)
       ∧ (SubclassOf_call class_repr class_repr class_repr
            p VNone (VAttribute "x") (VType Cbool) ∅ = (Ok tt, ∅)
          ↔ ∃ t, t ∈ [Cint] ∧ subclass_of_class Cbool t = true).
Proof.
  split; [discriminate|].
  apply (SubclassOf_class_raises_iff class_repr class_repr class_repr
           [Cint] VNone (VAttribute "x") Cbool ∅).
  discriminate.
Defined.

Lemma SubclassOf_rejects_non_class_witness :
  is_type (VInt 5) = false
  ∧ ∃ p, subclass_of class_repr class_repr class_repr (map VType [Cint]) ∅ = (Ok p, ∅)
       ∧ SubclassOf_call class_repr class_repr class_repr
           p VNone (VAttribute "x") (VInt 5) ∅
         = (Raise (Exn TypeError
              [VStr "unsupported format string passed to generator.__format__"]
              (Some (type_error "issubclass() arg 1 must be a class"))), ∅).
Proof.
  split; [reflexivity|].
  apply (SubclassOf_rejects_non_class class_repr class_repr class_repr
           [Cint] VNone (VAttribute "x") (VInt 5) ∅).
  - discriminate.
  - reflexivity.
Defined.

Lemma wider_whitelist_accepts_more_witness :
  (InstanceOf_call class_repr class_repr class_repr
     {| vclass := InstanceOf; whitelist := VFrozenset [VType Cint] |}
     VNone (VAttribute "x") (VBool true) ∅ = (Ok tt, ∅)
   → InstanceOf_call class_repr class_repr class_repr
       {| vclass := InstanceOf; whitelist := VFrozenset [VType Cint; VType Cstr] |}
       VNone (VAttribute "x") (VBool true) ∅ = (Ok tt, ∅))
  ∧ (SubclassOf_call class_repr class_repr class_repr
       {| vclass := InstanceOf; whitelist := VFrozenset [VType Cint] |}
       VNone (VAttribute "x") (VBool true) ∅ = (Ok tt, ∅)
     → SubclassOf_call class_repr class_repr class_repr
         {| vclass := InstanceOf; whitelist := VFrozenset [VType Cint; VType Cstr] |}
         VNone (VAttribute "x") (VBool true) ∅ = (Ok tt, ∅)).
Proof.
  apply (wider_whitelist_accepts_more class_repr class_repr class_repr
           [Cint] [Cint; Cstr]).
  - reflexivity.
  - reflexivity.
  - intros t. rewrite !elem_of_cons. tauto.
Defined.

Lemma accepted_classes_closed_witness :
  SubclassOf_call class_repr class_repr class_repr
    {| vclass := SubclassOf; whitelist := VFrozenset [VType Cint] |}
    VNone (VAttribute "x") (VType Cint) ∅ = (Ok tt, ∅).
Proof.
  apply (proj1 (accepted_classes_closed class_repr class_repr class_repr
                  [Cint] {| vclass := SubclassOf; whitelist := VFrozenset [VType Cint] |}
                  VNone (VAttribute "x") ∅ eq_refl)).
  constructor.
Defined.


Lemma AllInstanceOf_exhausts_witness :
  ({[ 0%nat := [VStr "a"; VInt 3] ]} : heap) !! 0%nat = Some [VStr "a"; VInt 3]
  ∧ AllInstanceOf_call class_repr class_repr class_repr
      {| vclass := AllInstanceOf; whitelist := VFrozenset [VType Cstr] |}
      VNone (VAttribute "items") (VIter 0) {[ 0%nat := [VStr "a"; VInt 3] ]}
    = (Ok tt, <[ 0%nat := [] ]> {[ 0%nat := [VStr "a"; VInt 3] ]}).
Proof.
  split; [reflexivity|].
  apply (AllInstanceOf_exhausts class_repr class_repr class_repr
           {| vclass := AllInstanceOf; whitelist := VFrozenset [VType Cstr] |}
           VNone (VAttribute "items") 0%nat [VStr "a"; VInt 3]).
  reflexivity.
Defined.

Lemma AllSubclassOf_list_returns_iff_witness :
  [Cint] ≠ []
  ∧ ∃ p, new class_repr class_repr class_repr AllSubclassOf
           (VFrozenset (map VType [Cint])) ∅ = (Ok p, ∅)
       ∧ (AllSubclassOf_call class_repr class_repr class_repr
            p VNone (VAttribute "x") (VList [VType Cbool; VInt 5]) ∅ = (Ok tt, ∅)
          ↔ ∀ x, x ∈ [VType Cbool; VInt 5] → subclass_ok [Cint] x = true)
       ∧ ((∃ x, x ∈ [VType Cbool; VInt 5] ∧ subclass_ok [Cint] x = false) →
          ∃ e, AllSubclassOf_call class_repr class_repr class_repr
                 p VNone (VAttribute "x") (VList [VType Cbool; VInt 5]) ∅ = (Raise e, ∅)
               ∧ exn_cls e = AttributeError).
Proof.
  split; [discriminate|].
  apply (AllSubclassOf_list_returns_iff class_repr class_repr class_repr
           [Cint] VNone (VAttribute "x") [VType Cbool; VInt 5] ∅).
  discriminate.
Defined.

Lemma AllSubclassOf_iterator_single_pass_witness :
  ∃ e, AllSubclassOf_call class_repr class_repr class_repr
         {| vclass := AllSubclassOf; whitelist := VFrozenset [VType Cint] |}
         VNone (VAttribute "x") (VIter 0)
         {[ 0%nat := [VType Cbool; VType Cstr; VType Cint] ]}
       = (Raise e, <[ 0%nat := [VType Cint] ]>
                     {[ 0%nat := [VType Cbool; VType Cstr; VType Cint] ]})
     ∧ exn_cls e = AttributeError.
Proof.
  apply (proj1 (AllSubclassOf_iterator_single_pass class_repr class_repr class_repr
                  [Cint] {| vclass := AllSubclassOf; whitelist := VFrozenset [VType Cint] |}
                  VNone (VAttribute "x") 0%nat
                  {[ 0%nat := [VType Cbool; VType Cstr; VType Cint] ]} eq_refl)
           [VType Cbool] (VType Cstr) [VType Cint]).
  - reflexivity.
  - intros y Hy. apply list_elem_of_singleton in Hy as ->. reflexivity.
  - reflexivity.
Defined.

